(** * pyrender offscreen wrapper and turntable driver: a shallow embedding

    Two source files are modelled.

    - [src/mypyrender/offscreen.py]: the class [OffscreenRenderer].  Its
      methods are state transformers over a record holding the process
      environment, a log of the calls made into the rendering library and
      the attributes of the object; a Python exception is a [Raise] result
      that leaves the state reached so far in place.
    - [src/render_360degree.py]: the colour assignment and the per-view
      rotation of [main], over two-dimensional arrays of real numbers; the
      per-view rotation is also given over binary64 floats, as numpy
      computes it. *)

From Stdlib Require Import ZArith QArith Lia String Ascii List Reals Lra.
From Stdlib Require Floats.PrimFloat.
From stdpp Require Import base gmap strings list.

Close Scope Q_scope.

Set Default Proof Using "Type".

(** ** Exceptions and results *)

(** The exception classes the two files can meet.  [LibraryError] stands
    for whatever error the rendering library or the graphics driver raises.
    [KeyboardInterrupt] and [SystemExit] can be raised while a call into the
    library runs; they derive from [BaseException] without being
    [Exception]s. *)
Inductive exn : Type :=
| AttributeError
| KeyError (key : string)
| TypeError
| ValueError
| OverflowError
| AssertionError
| ZeroDivisionError
| LibraryError (code : nat)
| KeyboardInterrupt
| SystemExit.

(** [isinstance(e, Exception)] *)
Definition is_Exception (e : exn) : bool :=
  match e with
  | KeyboardInterrupt | SystemExit => false
  | _ => true
  end.

Inductive result (A : Type) : Type :=
| Ok (a : A)
| Raise (e : exn).
Arguments Ok {A} a.
Arguments Raise {A} e.

(** ** Python values *)

(** [int] applied to a [str] is the interpreter's parser, not code of the
    repository: it is kept abstract.  The one fact used about it is the value
    of the literal ['0'], the default of [EGL_DEVICE_ID]. *)
Class PyIntOfStr : Type := {
  int_of_str : string -> option Z;             (* None: ValueError *)
  int_of_str_0 : int_of_str "0" = Some 0%Z;
}.

(** Python's [float] is kept abstract: the wrapper only converts to and from
    it and compares it, so the operations it needs form an interface. *)
Class PyFloat : Type := {
  float64 : Type;
  float_one : float64;                         (* the literal 1.0 *)
  float_of_int : Z -> option float64;          (* None: OverflowError *)
  float_of_str : string -> option float64;     (* None: ValueError *)
  float_to_int : float64 -> result Z;          (* truncation; nan and inf raise *)
  float_nonzero : float64 -> bool;             (* truth value *)
  float_eqb : float64 -> float64 -> bool;      (* == on two floats *)
  float_eq_int : float64 -> Z -> bool;         (* == on a float and an int *)
}.

Section Values.
Context `{PyIntOfStr} `{PyFloat}.

Inductive PyVal : Type :=
| VNone
| VBool (b : bool)
| VInt (z : Z)
| VFloat (x : float64)
| VStr (s : string).

(** [int(value)] *)
Definition py_int (value : PyVal) : result Z :=
  match value with
  | VNone => Raise TypeError
  | VBool b => Ok (Z.b2z b)
  | VInt z => Ok z
  | VFloat x => float_to_int x
  | VStr s => match int_of_str s with Some z => Ok z | None => Raise ValueError end
  end.

(** [float(value)] *)
Definition py_float (value : PyVal) : result float64 :=
  match value with
  | VNone => Raise TypeError
  | VBool b => match float_of_int (Z.b2z b) with Some x => Ok x | None => Raise OverflowError end
  | VInt z => match float_of_int z with Some x => Ok x | None => Raise OverflowError end
  | VFloat x => Ok x
  | VStr s => match float_of_str s with Some x => Ok x | None => Raise ValueError end
  end.

(** The truth value tested by [if value:]. *)
Definition py_truthy (value : PyVal) : bool :=
  match value with
  | VNone => false
  | VBool b => b
  | VInt z => negb (z =? 0)%Z
  | VFloat x => float_nonzero x
  | VStr s => negb (String.eqb s "")
  end.

(** [a == b] on the built-in types. *)
Definition py_eq (a b : PyVal) : bool :=
  match a, b with
  | VNone, VNone => true
  | VBool x, VBool y => Bool.eqb x y
  | VBool x, VInt y => (Z.b2z x =? y)%Z
  | VInt x, VBool y => (x =? Z.b2z y)%Z
  | VInt x, VInt y => (x =? y)%Z
  | VFloat x, VFloat y => float_eqb x y
  | VFloat x, VInt y => float_eq_int x y
  | VInt x, VFloat y => float_eq_int y x
  | VFloat x, VBool y => float_eq_int x (Z.b2z y)
  | VBool x, VFloat y => float_eq_int y (Z.b2z x)
  | VStr x, VStr y => String.eqb x y
  | _, _ => false
  end.

Definition py_ne (a b : PyVal) : bool := negb (py_eq a b).

End Values.

(** ** The rendering library, seen from the wrapper *)

(** [RenderFlags] of [constants.py], which is not among the sources: the
    wrapper only ors these constants into a bit mask and tests one of them,
    so their values are parameters. *)
Class RenderFlags : Type := {
  NONE : Z;
  DEPTH_ONLY : Z;
  OFFSCREEN : Z;
  FLIP_WIREFRAME : Z;
  ALL_WIREFRAME : Z;
  ALL_SOLID : Z;
  SHADOWS_DIRECTIONAL : Z;
  SHADOWS_SPOT : Z;
  VERTEX_NORMALS : Z;
  FACE_NORMALS : Z;
  SKIP_CULL_FACES : Z;
}.

(** The scene handed to [render] is opaque to the wrapper. *)
Inductive Scene : Type := SceneRef (id : nat).

(** The device object returned by [egl.get_device_by_index]. *)
Record EGLDevice : Type := { device_index : Z }.

(** The three platform classes. *)
Inductive Backend : Type :=
| PygletPlatform
| EGLPlatform (device : EGLDevice)
| OSMesaPlatform.

(** A value handed back by the library (an image buffer, say), named by the
    position in the log of the call that produced it. *)
Inductive LibVal : Type := LibValue (at_call : nat).

(** What [render] returns: one library value, or the tuple [(color, depth)]. *)
Inductive RenderOut : Type :=
| OutValue (v : LibVal)
| OutPair (color depth : LibVal).

(** An attribute that holds an object reference: not bound yet, bound to
    [None], or bound to an object. *)
Inductive attr (A : Type) : Type :=
| Missing
| Null
| Ref (a : A).
Arguments Missing {A}.
Arguments Null {A}.
Arguments Ref {A} a.

Section Wrapper.
Context `{PyFloat} `{RenderFlags}.

(** Every call the wrapper makes into the library, with its arguments. *)
Inductive Call : Type :=
| CNewPlatform (b : Backend) (w h : PyVal)
| CGetDeviceByIndex (i : Z)
| CInitContext (p : nat)
| CMakeCurrent (p : nat)
| CDeleteContext (p : nat)
| CNewRenderer (w h : PyVal)
| CRendererDelete (r : nat)
| CRendererRender (r : nat) (scene : Scene) (flags : Z)
| CReadDepthBuf (r : nat)
| CReadColorBuf (r : nat).

(** The library's own behaviour: whether a platform can resize its
    framebuffer in place, and whether a call raises given the calls that
    came before it. *)
Class Library : Type := {
  supports_framebuffers : Backend -> bool;
  raises : list Call -> Call -> option exn;
}.

(** A library none of whose calls fails. *)
Definition never_raises {L : Library} : Prop :=
  forall (log : list Call) (c : Call), raises log c = None.

(** Modelled from the spec: the platform classes are missing from the
    sources; a platform object keeps the viewport dimensions it was
    constructed with ("if viewport dimensions changed"). *)
Record Platform : Type := {
  p_id : nat;
  p_backend : Backend;
  p_viewport_width : PyVal;
  p_viewport_height : PyVal;
}.

(** Modelled from the spec: the [Renderer] class is missing from the
    sources; it is an object whose viewport and point-size attributes hold
    what was last assigned to them ("the viewport dimensions after the call
    match the requested values").  [r_point_size] is [None] until the
    wrapper assigns it. *)
Record Renderer : Type := {
  r_id : nat;
  r_viewport_width : PyVal;
  r_viewport_height : PyVal;
  r_point_size : option PyVal;
}.

(** ** State *)

(** The process: [os.environ], [sys.platform], the next object identity and
    the log of the library calls that returned. *)
Record World : Type := {
  environ : gmap string string;
  sys_platform : string;
  next_id : nat;
  trace : list Call;
}.

(** The attributes of one [OffscreenRenderer]; [None] is an attribute that
    is not bound yet. *)
Record Self : Type := {
  _viewport_width : option PyVal;
  _viewport_height : option PyVal;
  _point_size : option PyVal;
  _default_render_flags : option (gmap string PyVal);
  _render_flags : option (gmap string PyVal);
  _platform : attr Platform;
  _renderer : attr Renderer;
}.

Record State : Type := { world : World; self : Self }.

(** The object as [__init__] receives it. *)
Definition unbound : Self :=
  {| _viewport_width := None; _viewport_height := None; _point_size := None;
     _default_render_flags := None; _render_flags := None;
     _platform := Missing; _renderer := Missing |}.

Definition with_self (f : Self -> Self) (s : State) : State :=
  {| world := world s; self := f (self s) |}.

Definition with_world (f : World -> World) (s : State) : State :=
  {| world := f (world s); self := self s |}.

Definition bind_viewport_width (v : PyVal) (o : Self) : Self :=
  {| _viewport_width := Some v; _viewport_height := _viewport_height o;
     _point_size := _point_size o;
     _default_render_flags := _default_render_flags o;
     _render_flags := _render_flags o;
     _platform := _platform o; _renderer := _renderer o |}.

Definition bind_viewport_height (v : PyVal) (o : Self) : Self :=
  {| _viewport_width := _viewport_width o; _viewport_height := Some v;
     _point_size := _point_size o;
     _default_render_flags := _default_render_flags o;
     _render_flags := _render_flags o;
     _platform := _platform o; _renderer := _renderer o |}.

Definition bind_point_size (v : PyVal) (o : Self) : Self :=
  {| _viewport_width := _viewport_width o; _viewport_height := _viewport_height o;
     _point_size := Some v;
     _default_render_flags := _default_render_flags o;
     _render_flags := _render_flags o;
     _platform := _platform o; _renderer := _renderer o |}.

Definition bind_default_render_flags (d : gmap string PyVal) (o : Self) : Self :=
  {| _viewport_width := _viewport_width o; _viewport_height := _viewport_height o;
     _point_size := _point_size o;
     _default_render_flags := Some d;
     _render_flags := _render_flags o;
     _platform := _platform o; _renderer := _renderer o |}.

Definition bind_render_flags (d : gmap string PyVal) (o : Self) : Self :=
  {| _viewport_width := _viewport_width o; _viewport_height := _viewport_height o;
     _point_size := _point_size o;
     _default_render_flags := _default_render_flags o;
     _render_flags := Some d;
     _platform := _platform o; _renderer := _renderer o |}.

Definition bind_platform (p : attr Platform) (o : Self) : Self :=
  {| _viewport_width := _viewport_width o; _viewport_height := _viewport_height o;
     _point_size := _point_size o;
     _default_render_flags := _default_render_flags o;
     _render_flags := _render_flags o;
     _platform := p; _renderer := _renderer o |}.

Definition bind_renderer (r : attr Renderer) (o : Self) : Self :=
  {| _viewport_width := _viewport_width o; _viewport_height := _viewport_height o;
     _point_size := _point_size o;
     _default_render_flags := _default_render_flags o;
     _render_flags := _render_flags o;
     _platform := _platform o; _renderer := r |}.

Definition log_call (c : Call) (w : World) : World :=
  {| environ := environ w; sys_platform := sys_platform w;
     next_id := next_id w; trace := trace w ++ [c] |}.

Definition take_id (w : World) : World :=
  {| environ := environ w; sys_platform := sys_platform w;
     next_id := S (next_id w); trace := trace w |}.

(** ** The monad of Python statements *)

Definition M (A : Type) : Type := State -> result A * State.

Definition ret {A} (a : A) : M A := fun s => (Ok a, s).

Definition raise {A} (e : exn) : M A := fun s => (Raise e, s).

Definition bind {A B} (m : M A) (k : A -> M B) : M B :=
  fun s =>
    match m s with
    | (Ok a, s') => k a s'
    | (Raise e, s') => (Raise e, s')
    end.

(** [try: m  except Exception: handler]: an exception that is no
    [Exception] is not caught. *)
Definition try_except {A} (m : M A) (handler : M A) : M A :=
  fun s =>
    match m s with
    | (Ok a, s') => (Ok a, s')
    | (Raise e, s') => if is_Exception e then handler s' else (Raise e, s')
    end.

Definition lift {A} (r : result A) : M A := fun s => (r, s).

Definition modify_self (f : Self -> Self) : M unit :=
  fun s => (Ok tt, with_self f s).

End Wrapper.

Declare Scope py_scope.
Delimit Scope py_scope with py.
Notation "x <- m ;; k" := (bind m (fun x => k))
  (at level 100, m at next level, right associativity) : py_scope.
Notation "m ;; k" := (bind m (fun _ => k))
  (at level 100, right associativity) : py_scope.

(** ** [OffscreenRenderer] *)

Section OffscreenRenderer.
Context `{PI : PyIntOfStr} `{PF : PyFloat} `{RF : RenderFlags} `{L : !Library}.
Local Open Scope py_scope.

(** Reading an attribute that may not be bound yet. *)
Definition getattr {A} (field : Self -> option A) : M A :=
  fun s =>
    match field (self s) with
    | Some a => (Ok a, s)
    | None => (Raise AttributeError, s)
    end.

(** The object a reference attribute points to, as needed by a method call
    or an attribute access on it: [None] has no attributes. *)
Definition deref {A} (field : Self -> attr A) : M A :=
  fun s =>
    match field (self s) with
    | Ref a => (Ok a, s)
    | Null | Missing => (Raise AttributeError, s)
    end.

(** A call into the library: it raises what the library decides, or it
    returns and is logged. *)
Definition call (c : Call) : M LibVal :=
  fun s =>
    match raises (trace (world s)) c with
    | Some e => (Raise e, s)
    | None =>
        (Ok (LibValue (length (trace (world s)))), with_world (log_call c) s)
    end.

Definition fresh_id : M nat :=
  fun s => (Ok (next_id (world s)), with_world take_id s).

Definition os_environ : M (gmap string string) :=
  fun s => (Ok (environ (world s)), s).

(** [sys.platform == name] *)
Definition sys_platform_is (name : string) : M bool :=
  fun s => (Ok (String.eqb (sys_platform (world s)) name), s).

Fixpoint for_each {A} (l : list A) (body : A -> M unit) : M unit :=
  match l with
  | [] => ret tt
  | a :: l' => body a ;; for_each l' body
  end.

(** *** Constructors of the library *)

Definition new_platform (b : Backend) (w h : PyVal) : M Platform :=
  call (CNewPlatform b w h) ;;
  i <- fresh_id ;;
  ret {| p_id := i; p_backend := b;
         p_viewport_width := w; p_viewport_height := h |}.

Definition get_device_by_index (i : Z) : M EGLDevice :=
  call (CGetDeviceByIndex i) ;;
  ret {| device_index := i |}.

Definition new_renderer (w h : PyVal) : M Renderer :=
  call (CNewRenderer w h) ;;
  i <- fresh_id ;;
  ret {| r_id := i; r_viewport_width := w; r_viewport_height := h;
         r_point_size := None |}.

(** *** Properties (lines 78-134) *)

Definition viewport_width : M PyVal := getattr _viewport_width.

Definition set_viewport_width (value : PyVal) : M unit :=
  z <- lift (py_int value) ;;
  modify_self (bind_viewport_width (VInt z)).

Definition viewport_height : M PyVal := getattr _viewport_height.

Definition set_viewport_height (value : PyVal) : M unit :=
  z <- lift (py_int value) ;;
  modify_self (bind_viewport_height (VInt z)).

Definition point_size : M PyVal := getattr _point_size.

Definition set_point_size (value : PyVal) : M unit :=
  x <- lift (py_float value) ;;
  modify_self (bind_point_size (VFloat x)).

Definition render_flags : M (gmap string PyVal) := getattr _render_flags.

Definition set_render_flags (value : gmap string PyVal) : M unit :=
  modify_self (bind_render_flags value).

(** [self.render_flags[key]] *)
Definition render_flag (key : string) : M PyVal :=
  d <- render_flags ;;
  match d !! key with
  | Some v => ret v
  | None => raise (KeyError key)
  end.

(** *** [_create] (lines 203-226) *)

Definition _create : M unit :=
  env <- os_environ ;;
  match env !! "PYOPENGL_PLATFORM" with
  | None =>
      w <- viewport_width ;;
      h <- viewport_height ;;
      p <- new_platform PygletPlatform w h ;;
      modify_self (bind_platform (Ref p))
  | Some name =>
      if String.eqb name "egl" then
        device_id <- lift (py_int (VStr (default "0" (env !! "EGL_DEVICE_ID")))) ;;
        egl_device <- get_device_by_index device_id ;;
        w <- viewport_width ;;
        h <- viewport_height ;;
        p <- new_platform (EGLPlatform egl_device) w h ;;
        modify_self (bind_platform (Ref p))
      else if String.eqb name "osmesa" then
        w <- viewport_width ;;
        h <- viewport_height ;;
        p <- new_platform OSMesaPlatform w h ;;
        modify_self (bind_platform (Ref p))
      else
        raise ValueError
  end ;;
  p <- deref _platform ;;
  call (CInitContext (p_id p)) ;;
  p <- deref _platform ;;
  call (CMakeCurrent (p_id p)) ;;
  w <- viewport_width ;;
  h <- viewport_height ;;
  r <- new_renderer w h ;;
  modify_self (bind_renderer (Ref r)).

(** *** [delete] (lines 195-201) *)

Definition delete : M unit :=
  r <- deref _renderer ;;
  call (CRendererDelete (r_id r)) ;;
  p <- deref _platform ;;
  call (CDeleteContext (p_id p)) ;;
  modify_self (bind_renderer Null) ;;
  modify_self (bind_platform Null).

(** *** [__del__] (lines 228-232) *)

Definition __del__ : M unit :=
  try_except delete (ret tt).

(** *** [__init__] (lines 46-76) *)

Definition default_render_flags : gmap string PyVal :=
  <["flip_wireframe" := VBool false]>
  (<["all_wireframe" := VBool false]>
  (<["all_solid" := VBool false]>
  (<["shadows" := VBool false]>
  (<["vertex_normals" := VBool false]>
  (<["face_normals" := VBool false]>
  (<["cull_faces" := VBool true]>
  (<["point_size" := VFloat float_one]> ∅))))))).

(** [kwargs] lists the pairs of [**kwargs] in the order the loop of lines
    66-68 visits them.  The definition runs on every list; the lists a call
    can produce are the [delivered] ones below. *)
Definition __init__ (viewport_width viewport_height point_size : PyVal)
    (render_flags_arg : option (gmap string PyVal))
    (kwargs : list (string * PyVal)) : M unit :=
  set_viewport_width viewport_width ;;
  set_viewport_height viewport_height ;;
  set_point_size point_size ;;
  modify_self (bind_default_render_flags default_render_flags) ;;
  d <- getattr _default_render_flags ;;
  modify_self (bind_render_flags d) ;;
  match render_flags_arg with
  | Some given =>
      d <- getattr _render_flags ;;
      modify_self (bind_render_flags (given ∪ d))
  | None => ret tt
  end ;;
  for_each kwargs (fun kv =>
    d <- render_flags ;;
    if decide (is_Some (d !! kv.1)) then
      d <- getattr _render_flags ;;
      modify_self (bind_render_flags (<[kv.1 := kv.2]> d))
    else ret tt) ;;
  darwin <- sys_platform_is "darwin" ;;
  (if darwin : bool then
     d <- getattr _render_flags ;;
     modify_self (bind_render_flags (<["shadows" := VBool false]> d))
   else ret tt) ;;
  modify_self (bind_platform Null) ;;
  modify_self (bind_renderer Null) ;;
  _create.

(** *** [render] (lines 136-193) *)

(** Lines 169-174: at most one of the wireframe and solid modes is chosen. *)
Definition translate_mode (flags : Z) : M Z :=
  b <- render_flag "flip_wireframe" ;;
  if py_truthy b then ret (Z.lor flags FLIP_WIREFRAME)
  else
    b <- render_flag "all_wireframe" ;;
    if py_truthy b then ret (Z.lor flags ALL_WIREFRAME)
    else
      b <- render_flag "all_solid" ;;
      if py_truthy b then ret (Z.lor flags ALL_SOLID)
      else ret flags.

(** Lines 169-182: the stored flag mapping is turned into bits of [flags]. *)
Definition translate_flags (flags : Z) : M Z :=
  flags <- translate_mode flags ;;
  b <- render_flag "shadows" ;;
  flags <- ret (if py_truthy b
                then Z.lor flags (Z.lor SHADOWS_DIRECTIONAL SHADOWS_SPOT)
                else flags) ;;
  b <- render_flag "vertex_normals" ;;
  flags <- ret (if py_truthy b then Z.lor flags VERTEX_NORMALS else flags) ;;
  b <- render_flag "face_normals" ;;
  flags <- ret (if py_truthy b then Z.lor flags FACE_NORMALS else flags) ;;
  b <- render_flag "cull_faces" ;;
  flags <- ret (if negb (py_truthy b) then Z.lor flags SKIP_CULL_FACES else flags) ;;
  ret flags.

(** Lines 155-162: make the context current and, when the viewport changed
    on a platform that cannot resize its framebuffer, start over. *)
Definition render_resize : M unit :=
  p <- deref _platform ;;
  call (CMakeCurrent (p_id p)) ;;
  p <- deref _platform ;;
  h <- viewport_height ;;
  changed <-
    (if py_ne (p_viewport_height p) h then ret true
     else
       p <- deref _platform ;;
       w <- viewport_width ;;
       ret (py_ne (p_viewport_width p) w)) ;;
  if changed : bool then
    p <- deref _platform ;;
    if negb (supports_framebuffers (p_backend p)) then
      delete ;;
      _create
    else ret tt
  else ret tt.

(** [self._renderer.<attribute> = value] *)
Definition assign_renderer (f : Renderer -> Renderer) : M unit :=
  r <- deref _renderer ;;
  modify_self (bind_renderer (Ref (f r))).

(** Lines 164-167: the renderer is given the wrapper's viewport. *)
Definition render_sync : M unit :=
  p <- deref _platform ;;
  call (CMakeCurrent (p_id p)) ;;
  w <- viewport_width ;;
  assign_renderer (fun r =>
    {| r_id := r_id r; r_viewport_width := w;
       r_viewport_height := r_viewport_height r;
       r_point_size := r_point_size r |}) ;;
  h <- viewport_height ;;
  assign_renderer (fun r =>
    {| r_id := r_id r; r_viewport_width := r_viewport_width r;
       r_viewport_height := h;
       r_point_size := r_point_size r |}) ;;
  ps <- point_size ;;
  assign_renderer (fun r =>
    {| r_id := r_id r; r_viewport_width := r_viewport_width r;
       r_viewport_height := r_viewport_height r;
       r_point_size := Some ps |}).

(** Lines 184-193: one library call on a platform with framebuffers, a
    render pass and explicit read-backs otherwise. *)
Definition render_dispatch (scene : Scene) (flags : Z) : M RenderOut :=
  p <- deref _platform ;;
  if supports_framebuffers (p_backend p) then
    flags <- ret (Z.lor flags OFFSCREEN) ;;
    r <- deref _renderer ;;
    v <- call (CRendererRender (r_id r) scene flags) ;;
    ret (OutValue v)
  else
    r <- deref _renderer ;;
    call (CRendererRender (r_id r) scene flags) ;;
    r <- deref _renderer ;;
    depth <- call (CReadDepthBuf (r_id r)) ;;
    if negb (Z.land flags DEPTH_ONLY =? 0)%Z then ret (OutValue depth)
    else
      r <- deref _renderer ;;
      color <- call (CReadColorBuf (r_id r)) ;;
      ret (OutPair color depth).

Definition render (scene : Scene) (flags : Z) : M RenderOut :=
  render_resize ;;
  render_sync ;;
  flags <- translate_flags flags ;;
  render_dispatch scene flags.

End OffscreenRenderer.

(** ** Instances used in the examples *)

(** CPython's [int] on an ASCII [str], with the interpreter's default limit
    of 4300 digits: white space around the literal is dropped, one sign is
    allowed, and the digits may be grouped by single underscores.  A string
    with a character beyond ASCII is rejected here, while CPython also reads
    the digits and spaces of other scripts; the examples use ASCII only. *)
Module PyInt.

(** [Py_ISSPACE]: tab, line feed, vertical tab, form feed, carriage return
    and the space. *)
Definition is_space (c : ascii) : bool :=
  let n := nat_of_ascii c in
  ((9 <=? n) && (n <=? 13) || (n =? 32))%nat.

Definition digit_of (c : ascii) : option Z :=
  let n := nat_of_ascii c in
  if ((48 <=? n) && (n <=? 57))%nat then Some (Z.of_nat (n - 48)) else None.

Fixpoint lstrip (l : list ascii) : list ascii :=
  match l with
  | c :: l' => if is_space c then lstrip l' else l
  | [] => []
  end.

Definition strip (l : list ascii) : list ascii :=
  rev (lstrip (rev (lstrip l))).

(** [after_digit] tells whether the previous character was a digit: an
    underscore is legal only there, and the literal must end there. *)
Fixpoint digits (acc : Z) (after_digit : bool) (l : list ascii) : option Z :=
  match l with
  | [] => if after_digit then Some acc else None
  | c :: l' =>
      match digit_of c with
      | Some d => digits (10 * acc + d)%Z true l'
      | None =>
          if (nat_of_ascii c =? 95)%nat && after_digit
          then digits acc false l'
          else None
      end
  end.

(** [sys.get_int_max_str_digits()] as the interpreter starts. *)
Definition max_str_digits : Z := 4300.

Definition count_digits (l : list ascii) : Z :=
  Z.of_nat (length (filter (fun c => bool_decide (is_Some (digit_of c))) l)).

Definition parse (s : string) : option Z :=
  let l := strip (list_ascii_of_string s) in
  if (max_str_digits <? count_digits l)%Z then None
  else
    match l with
    | c :: l =>
        if (nat_of_ascii c =? 45)%nat then Z.opp <$> digits 0 false l
        else if (nat_of_ascii c =? 43)%nat then digits 0 false l
        else digits 0 false (c :: l)
    | [] => None
    end.

End PyInt.

#[export] Instance ascii_ints : PyIntOfStr := {|
  int_of_str := PyInt.parse;
  int_of_str_0 := eq_refl;
|}.

(** A small model of the interface: floats that are exact rationals, none
    of which is read from a string. *)
#[export] Instance rational_floats : PyFloat := {|
  float64 := Q;
  float_one := 1%Q;
  float_of_int := fun z => Some (inject_Z z);
  float_of_str := fun _ => None;
  float_to_int := fun q => Ok (Z.quot (Qnum q) (Zpos (Qden q)));
  float_nonzero := fun q => negb (Qeq_bool q 0);
  float_eqb := Qeq_bool;
  float_eq_int := fun q z => Qeq_bool q (inject_Z z);
|}.

(** The values the constants have in upstream pyrender. *)
#[export] Instance pyrender_flags : RenderFlags := {|
  NONE := 0;
  DEPTH_ONLY := 1;
  OFFSCREEN := 2;
  FLIP_WIREFRAME := 4;
  ALL_WIREFRAME := 8;
  ALL_SOLID := 16;
  SHADOWS_DIRECTIONAL := 32;
  SHADOWS_SPOT := 128;
  VERTEX_NORMALS := 256;
  FACE_NORMALS := 512;
  SKIP_CULL_FACES := 1024;
|}.

(** A library whose calls all return; as upstream, only EGL renders into
    framebuffers. *)
Definition quiet_library : Library := {|
  supports_framebuffers := fun b =>
    match b with EGLPlatform _ => true | _ => false end;
  raises := fun _ _ => None;
|}.

(** A library in which no platform has framebuffers and the renderer's
    [delete] fails. *)
Definition failing_library : Library := {|
  supports_framebuffers := fun _ => false;
  raises := fun _ c =>
    match c with CRendererDelete _ => Some (LibraryError 1) | _ => None end;
|}.

Definition process (env : list (string * string)) : World :=
  {| environ := list_to_map env; sys_platform := "linux";
     next_id := 0; trace := [] |}.

Definition before_init (env : list (string * string)) : State :=
  {| world := process env; self := unbound |}.

(** [OffscreenRenderer(640, 480)] in a process with the given environment. *)
Definition constructed (L : Library) (env : list (string * string)) : State :=
  (__init__ (L := L) (VInt 640) (VInt 480) (VFloat float_one) None []
     (before_init env)).2.

(** ** The driver script [render_360degree.py] *)

(** numpy's float arrays are idealised: an entry is a real number, so the
    arithmetic below is exact. *)
Module Driver.

Local Open Scope R_scope.

(** A two-dimensional array.  The length of the second axis is stored, as
    an array may have no rows. *)
Record ndarray : Type := { shape1 : nat; rows : list (list R) }.

Definition shape0 (a : ndarray) : nat := length (rows a).

(** Every array numpy builds is rectangular. *)
Definition well_shaped (a : ndarray) : Prop :=
  Forall (fun r => length r = shape1 a) (rows a).

Definition item (a : ndarray) (i j : nat) : R :=
  nth j (nth i (rows a) []) 0.

(** [np.ones_like(a)] *)
Definition ones_like (a : ndarray) : ndarray :=
  {| shape1 := shape1 a; rows := map (map (fun _ => 1)) (rows a) |}.

(** [a * k] for a scalar [k] *)
Definition scale (a : ndarray) (k : R) : ndarray :=
  {| shape1 := shape1 a; rows := map (map (fun x => x * k)) (rows a) |}.

(** The length two axes broadcast to, if they are compatible. *)
Definition broadcast_axis (m n : nat) : option nat :=
  if (m =? n)%nat then Some m
  else if (m =? 1)%nat then Some n
  else if (n =? 1)%nat then Some m
  else None.

(** Along an axis of length one every index reads position 0. *)
Definition pin (len i : nat) : nat := if (len =? 1)%nat then 0%nat else i.

(** [a * b] with broadcasting *)
Definition multiply (a b : ndarray) : result ndarray :=
  match broadcast_axis (shape0 a) (shape0 b),
        broadcast_axis (shape1 a) (shape1 b) with
  | Some n, Some m =>
      Ok {| shape1 := m;
            rows := map (fun i =>
                      map (fun j =>
                        item a (pin (shape0 a) i) (pin (shape1 a) j) *
                        item b (pin (shape0 b) i) (pin (shape1 b) j))
                        (seq 0 m))
                      (seq 0 n) |}
  | _, _ => Raise ValueError
  end.

(** [a\[:3, :3\]] *)
Definition top_left3 (a : ndarray) : ndarray :=
  {| shape1 := Nat.min 3 (shape1 a);
     rows := map (firstn 3) (firstn 3 (rows a)) |}.

(** [a.transpose()] *)
Definition transpose (a : ndarray) : ndarray :=
  {| shape1 := shape0 a;
     rows := map (fun j => map (fun i => item a i j) (seq 0 (shape0 a)))
               (seq 0 (shape1 a)) |}.

Definition sum (l : list R) : R := fold_right Rplus 0 l.

(** [np.matmul(a, b)] *)
Definition matmul (a b : ndarray) : result ndarray :=
  if (shape1 a =? shape0 b)%nat then
    Ok {| shape1 := shape1 b;
          rows := map (fun i =>
                    map (fun j =>
                      sum (map (fun k => item a i k * item b k j)
                             (seq 0 (shape1 a))))
                      (seq 0 (shape1 b)))
                    (seq 0 (shape0 a)) |}
  else Raise ValueError.

(** [rotationy] (lines 59-65) *)
Definition rotationy (theta : R) : ndarray :=
  {| shape1 := 4;
     rows := [ [cos (theta / 180 * PI); 0; sin (theta / 180 * PI); 0];
               [0; 1; 0; 0];
               [- sin (theta / 180 * PI); 0; cos (theta / 180 * PI); 0];
               [0; 0; 0; 1] ] |}.

(** The mesh dictionary returned by [objio.load_obj_data]: vertices, faces
    and, when the file has them, vertex colours. *)
Record Mesh : Type := {
  v : ndarray;
  f : list (list nat);
  vc : option ndarray;
}.

Definition with_vc (colors : ndarray) (mesh : Mesh) : Mesh :=
  {| v := v mesh; f := f mesh; vc := Some colors |}.

Definition with_v (vertices : ndarray) (mesh : Mesh) : Mesh :=
  {| v := vertices; f := f mesh; vc := vc mesh |}.

(** [main], lines 103-110: the vertex colours of the loaded mesh. *)
Definition assign_colors (mesh : Mesh) (color : option ndarray) : result Mesh :=
  let mesh :=
    match vc mesh with
    | None => with_vc (scale (ones_like (v mesh)) (8 / 10)) mesh
    | Some _ => mesh
    end in
  match color with
  | None => Ok mesh
  | Some color =>
      if (shape0 color =? 1)%nat then
        match multiply (ones_like (v mesh)) color with
        | Ok colors => Ok (with_vc colors mesh)
        | Raise e => Raise e
        end
      else if (shape0 (v mesh) =? shape0 color)%nat then
        Ok (with_vc color mesh)
      else Raise AssertionError
  end.

(** The body of the per-view loop that touches the vertices (line 163),
    run [n] times. *)
Fixpoint rotate_times (n : nat) (rotmat vertices : ndarray) : result ndarray :=
  match n with
  | O => Ok vertices
  | S n' =>
      match matmul vertices (transpose rotmat) with
      | Ok vertices' => rotate_times n' rotmat vertices'
      | Raise e => Raise e
      end
  end.

(** [main], lines 160-163: the vertices after the loop over [view_num]
    views. *)
Definition turntable (view_num : Z) (vertices : ndarray) : result ndarray :=
  if (view_num =? 0)%Z then Raise ZeroDivisionError
  else
    let angle := 360 / IZR view_num in
    let rotmat := top_left3 (rotationy angle) in
    rotate_times (Z.to_nat view_num) rotmat vertices.

(** The identity matrix and the powers of a square matrix, to state what
    a full turn is. *)
Definition eye (n : nat) : ndarray :=
  {| shape1 := n;
     rows := map (fun i => map (fun j => if (i =? j)%nat then 1 else 0) (seq 0 n))
               (seq 0 n) |}.



(** [location] (lines 68-74) *)
Definition location (x y z : R) : ndarray :=
  {| shape1 := 4;
     rows := [ [1; 0; 0; x];
               [0; 1; 0; y];
               [0; 0; 1; z];
               [0; 0; 0; 1] ] |}.



(** [main], lines 149-158: the flag mapping the script hands to its
    [OffscreenRenderer]. *)
Definition render_flags `{PF : PyFloat} (render_shadow : PyVal) :
    gmap string PyVal :=
  <["flip_wireframe" := VBool false]>
  (<["all_wireframe" := VBool false]>
  (<["all_solid" := VBool false]>
  (<["shadows" := render_shadow]>
  (<["vertex_normals" := VBool false]>
  (<["face_normals" := VBool false]>
  (<["cull_faces" := VBool true]>
  (<["point_size" := VFloat float_one]> ∅))))))).

End Driver.

(** ** The view loop in float64

    The functions of the per-view rotation once more, with the entries numpy
    holds: IEEE 754 binary64 numbers with rounding to nearest, which are
    Rocq's primitive floats.  [np.cos] and [np.sin] are the C library's and
    are parameters.  numpy leaves the order of the additions in a product
    of matrices to the BLAS in use; they are made from left to right
    here. *)
Module DriverFloat64.

Import PrimFloat.
Local Open Scope float_scope.

Class Libm : Type := {
  np_cos : float -> float;
  np_sin : float -> float;
}.

Record ndarray : Type := { shape1 : nat; rows : list (list float) }.

Definition shape0 (a : ndarray) : nat := length (rows a).

Definition item (a : ndarray) (i j : nat) : float :=
  nth j (nth i (rows a) []) 0.

(** [a[:3, :3]] *)
Definition top_left3 (a : ndarray) : ndarray :=
  {| shape1 := Nat.min 3 (shape1 a);
     rows := map (firstn 3) (firstn 3 (rows a)) |}.

(** [a.transpose()] *)
Definition transpose (a : ndarray) : ndarray :=
  {| shape1 := shape0 a;
     rows := map (fun j => map (fun i => item a i j) (seq 0 (shape0 a)))
               (seq 0 (shape1 a)) |}.

Definition sum (l : list float) : float := fold_left add l 0.

(** [np.matmul(a, b)] *)
Definition matmul (a b : ndarray) : result ndarray :=
  if (shape1 a =? shape0 b)%nat then
    Ok {| shape1 := shape1 b;
          rows := map (fun i =>
                    map (fun j =>
                      sum (map (fun k => item a i k * item b k j)
                             (seq 0 (shape1 a))))
                      (seq 0 (shape1 b)))
                    (seq 0 (shape0 a)) |}
  else Raise ValueError.

(** [np.pi], the binary64 number nearest to pi: 3.141592653589793. *)
Definition np_pi : float := 0x1.921fb54442d18p+1.

(** [rotationy] (lines 59-65) *)
Definition rotationy `{Libm} (theta : float) : ndarray :=
  {| shape1 := 4;
     rows := [ [np_cos (theta / 180 * np_pi); 0; np_sin (theta / 180 * np_pi); 0];
               [0; 1; 0; 0];
               [- np_sin (theta / 180 * np_pi); 0; np_cos (theta / 180 * np_pi); 0];
               [0; 0; 0; 1] ] |}.

(** Line 163, [n] times. *)
Fixpoint rotate_times (n : nat) (rotmat vertices : ndarray) : result ndarray :=
  match n with
  | O => Ok vertices
  | S n' =>
      match matmul vertices (transpose rotmat) with
      | Ok vertices' => rotate_times n' rotmat vertices'
      | Raise e => Raise e
      end
  end.

(** The float a positive int converts to; exact below 2^53, which no
    number of views a loop can run through exceeds. *)
Fixpoint of_pos (p : positive) : float :=
  match p with
  | xH => 1
  | xO p' => 2 * of_pos p'
  | xI p' => 2 * of_pos p' + 1
  end.

Definition of_Z (z : Z) : float :=
  match z with
  | Z0 => 0
  | Zpos p => of_pos p
  | Zneg p => - of_pos p
  end.

(** [main], lines 160-163: the vertices after the loop over [view_num]
    views. *)
Definition turntable `{Libm} (view_num : Z) (vertices : ndarray) : result ndarray :=
  if (view_num =? 0)%Z then Raise ZeroDivisionError
  else
    let angle := 360 / of_Z view_num in
    let rotmat := top_left3 (rotationy angle) in
    rotate_times (Z.to_nat view_num) rotmat vertices.

End DriverFloat64.

(** ** Vocabulary for the statements about the wrapper *)

Section Outcomes.
Context `{PI : PyIntOfStr} `{PF : PyFloat} `{RF : RenderFlags} `{L : !Library}.
Local Open Scope py_scope.

(** The backend an environment asks for: no [PYOPENGL_PLATFORM] is Pyglet,
    ["egl"] is EGL on the device whose index [EGL_DEVICE_ID] spells, 0 when
    that variable is unset, and ["osmesa"] is OSMesa. *)
Inductive selects (env : gmap string string) : Backend -> Prop :=
| selects_pyglet :
    env !! "PYOPENGL_PLATFORM" = None ->
    selects env PygletPlatform
| selects_egl (i : Z) :
    env !! "PYOPENGL_PLATFORM" = Some "egl" ->
    int_of_str (default "0" (env !! "EGL_DEVICE_ID")) = Some i ->
    selects env (EGLPlatform {| device_index := i |})
| selects_osmesa :
    env !! "PYOPENGL_PLATFORM" = Some "osmesa" ->
    selects env OSMesaPlatform.

(** The library calls by which a backend and its renderer come to life;
    [i] is the identity the platform receives. *)
Definition create_calls (b : Backend) (w h : PyVal) (i : nat) : list Call :=
  match b with
  | EGLPlatform d => [CGetDeviceByIndex (device_index d)]
  | _ => []
  end ++
  [CNewPlatform b w h; CInitContext i; CMakeCurrent i; CNewRenderer w h].

Definition log_calls (cs : list Call) (w : World) : World :=
  {| environ := environ w; sys_platform := sys_platform w;
     next_id := next_id w; trace := trace w ++ cs |}.

(** The state a successful [_create] leaves: a platform of backend [b] and
    a renderer, both new, of the size [w] by [h]. *)
Definition created (b : Backend) (w h : PyVal) (s : State) : State :=
  let i := next_id (world s) in
  {| world := take_id (take_id (log_calls (create_calls b w h i) (world s)));
     self :=
       bind_renderer
         (Ref {| r_id := S i; r_viewport_width := w; r_viewport_height := h;
                 r_point_size := None |})
         (bind_platform
            (Ref {| p_id := i; p_backend := b;
                    p_viewport_width := w; p_viewport_height := h |})
            (self s)) |}.

(** The state a successful [delete] leaves. *)
Definition deleted (r : Renderer) (p : Platform) (s : State) : State :=
  {| world := log_calls [CRendererDelete (r_id r); CDeleteContext (p_id p)] (world s);
     self := bind_platform Null (bind_renderer Null (self s)) |}.

(** Lines 158-159: the platform's size is not the wrapper's. *)
Definition viewport_changed (p : Platform) (w h : PyVal) : bool :=
  py_ne (p_viewport_height p) h || py_ne (p_viewport_width p) w.

(** A renderer after lines 165-167. *)
Definition synced (w h ps : PyVal) (r : Renderer) : Renderer :=
  {| r_id := r_id r; r_viewport_width := w; r_viewport_height := h;
     r_point_size := Some ps |}.

(** A statement that reads the state and leaves it as it was. *)
Definition stateless {A} (m : M A) : Prop := forall s, (m s).2 = s.

(** A statement whose result depends on the flag mapping alone. *)
Definition reads_flags {A} (m : M A) : Prop :=
  forall s s', _render_flags (self s') = _render_flags (self s) ->
    (m s').1 = (m s).1.

(** The calls [render] makes once the viewport is settled. *)
Definition is_render_call (c : Call) : Prop :=
  match c with
  | CRendererRender _ _ _ | CReadDepthBuf _ | CReadColorBuf _ => True
  | _ => False
  end.

(** The bits contributed by the flags that do not exclude one another. *)
Definition independent_bits (d : gmap string PyVal) : Z :=
  let bit (key : string) (when_true : bool) (mask : Z) : Z :=
    match d !! key with
    | Some b => if Bool.eqb (py_truthy b) when_true then mask else 0%Z
    | None => 0%Z
    end in
  Z.lor (bit "shadows" true (Z.lor SHADOWS_DIRECTIONAL SHADOWS_SPOT))
    (Z.lor (bit "vertex_normals" true VERTEX_NORMALS)
       (Z.lor (bit "face_normals" true FACE_NORMALS)
          (bit "cull_faces" false SKIP_CULL_FACES))).

Definition flag_is (d : gmap string PyVal) (key : string) (truth : bool) : Prop :=
  exists b, d !! key = Some b /\ py_truthy b = truth.

(** What the users of an object can do to it and to the process. *)
Inductive Action : Type :=
| ASetViewportWidth (value : PyVal)
| ASetViewportHeight (value : PyVal)
| ASetPointSize (value : PyVal)
| ASetRenderFlags (value : gmap string PyVal)
| ARender (scene : Scene) (flags : Z)
| ADelete
| ASetEnviron (env : gmap string string).

Definition perform (a : Action) : M unit :=
  match a with
  | ASetViewportWidth value => set_viewport_width value
  | ASetViewportHeight value => set_viewport_height value
  | ASetPointSize value => set_point_size value
  | ASetRenderFlags value => set_render_flags value
  | ARender scene flags => render scene flags ;; ret tt
  | ADelete => delete
  | ASetEnviron env =>
      fun s =>
        (Ok tt,
         with_world (fun w =>
           {| environ := env; sys_platform := sys_platform w;
              next_id := next_id w; trace := trace w |}) s)
  end.

(** The states of an object that was constructed and then used; an action
    that raises leaves the state it had reached. *)
Inductive reachable : State -> Prop :=
| reachable_init (w : World) (vw vh ps : PyVal)
    (flags : option (gmap string PyVal)) (kwargs : list (string * PyVal)) (s : State) :
    __init__ vw vh ps flags kwargs {| world := w; self := unbound |} = (Ok tt, s) ->
    reachable s
| reachable_step (s : State) (a : Action) :
    reachable s ->
    reachable (perform a s).2.

(** The viewport is held as two ints and the point size as a float. *)
Definition attributes_typed (s : State) : Prop :=
  (exists z, _viewport_width (self s) = Some (VInt z)) /\
  (exists z, _viewport_height (self s) = Some (VInt z)) /\
  (exists x, _point_size (self s) = Some (VFloat x)).

(** Identities are handed out in increasing order, so the objects the
    wrapper holds are older than the next identity. *)
Definition identities_taken (s : State) : Prop :=
  (forall p, _platform (self s) = Ref p -> p_id p < next_id (world s)) /\
  (forall r, _renderer (self s) = Ref r -> r_id r < next_id (world s)).

(** Partial correctness with an exceptional postcondition: from [P], the
    statement returns in [Q] or raises in [E]. *)
Definition triple {A} (P : State -> Prop) (m : M A)
    (Q : A -> State -> Prop) (E : State -> Prop) : Prop :=
  forall s, P s ->
    match m s with
    | (Ok a, s') => Q a s'
    | (Raise _, s') => E s'
    end.

(** What holds of an object from the end of [__init__] on. *)
Definition invariant (s : State) : Prop :=
  attributes_typed s /\ identities_taken s.

(** A statement that maintains the invariant, whether it returns or
    raises. *)
Definition keeps {A} (m : M A) : Prop :=
  triple invariant m (fun _ => invariant) invariant.

(** What the user configures: the viewport, the point size, the flag
    mappings, and the process environment around them. *)
Definition settings (s : State) :
    option PyVal * option PyVal * option PyVal *
    option (gmap string PyVal) * option (gmap string PyVal) *
    gmap string string * string :=
  (_viewport_width (self s), _viewport_height (self s), _point_size (self s),
   _default_render_flags (self s), _render_flags (self s),
   environ (world s), sys_platform (world s)).

(** A statement that leaves the settings as they were, whether it returns
    or raises. *)
Definition keeps_settings {A} (m : M A) : Prop :=
  forall s, settings (m s).2 = settings s.

(** The platform and the renderer are both alive or both [None]. *)
Definition paired (s : State) : Prop :=
  (exists p r, _platform (self s) = Ref p /\ _renderer (self s) = Ref r) \/
  (_platform (self s) = Null /\ _renderer (self s) = Null).

(** The parameters of [__init__] (line 46).  A keyword argument of one of
    these names is bound to the parameter; [**kwargs] receives the other
    keyword arguments, each name once. *)
Definition init_parameters : list string :=
  ["self"; "viewport_width"; "viewport_height"; "point_size"; "render_flags"].

Definition delivered (kwargs : list (string * PyVal)) : Prop :=
  NoDup kwargs.*1 /\ Forall (fun name => name ∉ init_parameters) kwargs.*1.

(** The loop of lines 66-68 on the mapping alone: a keyword argument is
    stored only under a key the mapping already has. *)
Definition update_known (kwargs : list (string * PyVal))
    (d : gmap string PyVal) : gmap string PyVal :=
  fold_left
    (fun d kv => if decide (is_Some (d !! kv.1)) then <[kv.1 := kv.2]> d else d)
    kwargs d.

(** The flag mapping lines 52-72 arrive at. *)
Definition initial_flags (darwin : bool)
    (given : option (gmap string PyVal)) (kwargs : list (string * PyVal)) :
    gmap string PyVal :=
  let d := match given with
           | Some g => g ∪ default_render_flags
           | None => default_render_flags
           end in
  let d := update_known kwargs d in
  if darwin then <["shadows" := VBool false]> d else d.

(** The object as [_create] finds it at line 76. *)
Definition initialised (zw zh : Z) (x : float64) (d : gmap string PyVal) : Self :=
  {| _viewport_width := Some (VInt zw); _viewport_height := Some (VInt zh);
     _point_size := Some (VFloat x);
     _default_render_flags := Some default_render_flags;
     _render_flags := Some d;
     _platform := Null; _renderer := Null |}.

(** The keys [render] looks up. *)
Definition mode_keys : list string :=
  ["flip_wireframe"; "all_wireframe"; "all_solid"].

Definition independent_keys : list string :=
  ["shadows"; "vertex_normals"; "face_normals"; "cull_faces"].

End Outcomes.

(** ** Concrete objects for the examples *)

(** [OffscreenRenderer(640, 480)] in a process without
    [PYOPENGL_PLATFORM], its platform and its renderer. *)
Definition live : State := constructed quiet_library [].

Definition live_platform : Platform :=
  {| p_id := 0; p_backend := PygletPlatform;
     p_viewport_width := VInt 640; p_viewport_height := VInt 480 |}.

Definition live_renderer : Renderer :=
  {| r_id := 1; r_viewport_width := VInt 640; r_viewport_height := VInt 480;
     r_point_size := None |}.

(** The same object after [r.viewport_width = 800]. *)
Definition widened : State :=
  (perform (L := quiet_library) (ASetViewportWidth (VInt 800)) live).2.

(** The same object in a process that asks for EGL on device 0; this
    platform has framebuffers. *)
Definition live_egl : State :=
  constructed quiet_library [("PYOPENGL_PLATFORM", "egl")].

Definition live_egl_platform : Platform :=
  {| p_id := 0; p_backend := EGLPlatform {| device_index := 0 |};
     p_viewport_width := VInt 640; p_viewport_height := VInt 480 |}.

(** Flag mappings: the three modes at once, wireframe and solid without
    flip, solid alone. *)
Definition flags_all_modes : gmap string PyVal :=
  <["flip_wireframe" := VBool true]>
  (<["all_wireframe" := VBool true]>
  (<["all_solid" := VBool true]> default_render_flags)).

Definition flags_wireframe : gmap string PyVal :=
  <["all_wireframe" := VBool true]>
  (<["all_solid" := VBool true]> default_render_flags).

Definition flags_solid : gmap string PyVal :=
  <["all_solid" := VBool true]> default_render_flags.

Definition with_flags (d : gmap string PyVal) : State :=
  with_self (bind_render_flags d) live.

(** A state as [_create] finds it, in a process with the given
    environment. *)
Definition creating (env : list (string * string)) : State :=
  {| world := process env;
     self := bind_viewport_height (VInt 480)
               (bind_viewport_width (VInt 640) unbound) |}.

(** A triangle, a one-row RGB colour, a one-row RGBA colour, and colour
    arrays of two and of three rows. *)
Definition triangle : Driver.Mesh :=
  {| Driver.v := {| Driver.shape1 := 3;
                    Driver.rows := [ [0; 0; 0]; [1; 0; 0]; [0; 1; 0] ]%R |};
     Driver.f := [ [0; 1; 2] ];
     Driver.vc := None |}.

Definition rgb_row : Driver.ndarray :=
  {| Driver.shape1 := 3; Driver.rows := [ [1; 0; 0] ]%R |}.

Definition rgba_row : Driver.ndarray :=
  {| Driver.shape1 := 4; Driver.rows := [ [1; 0; 0; 1] ]%R |}.

Definition two_colors : Driver.ndarray :=
  {| Driver.shape1 := 3; Driver.rows := [ [1; 0; 0]; [0; 1; 0] ]%R |}.

Definition three_colors : Driver.ndarray :=
  {| Driver.shape1 := 3;
     Driver.rows := [ [1; 0; 0]; [0; 1; 0]; [0; 0; 1] ]%R |}.

(** A library in which the platform's [delete_context] fails. *)
Definition leaking_library : Library := {|
  supports_framebuffers := fun _ => false;
  raises := fun _ c =>
    match c with CDeleteContext _ => Some (LibraryError 2) | _ => None end;
|}.


Module Float64Examples.

Import PrimFloat.
Local Open Scope float_scope.





End Float64Examples.

(** A process on macOS. *)
Definition darwin_process : World :=
  {| environ := ∅; sys_platform := "darwin"; next_id := 0; trace := [] |}.

(** [OffscreenRenderer(640, 480, render_flags={'shadows': True},
    point_size=3, antialias=True)] on macOS: [point_size] is the named
    parameter, so only [antialias] reaches [kwargs]. *)
Definition constructed_on_darwin : State :=
  (__init__ (L := quiet_library) (VInt 640) (VInt 480) (VInt 3)
     (Some {["shadows" := VBool true]})
     [("antialias", VBool true)]
     {| world := darwin_process; self := unbound |}).2.

(** [OffscreenRenderer(640, 480, all_solid=True, antialias=True)] *)
Definition constructed_with_kwargs : State :=
  (__init__ (L := quiet_library) (VInt 640) (VInt 480) (VFloat float_one) None
     [("all_solid", VBool true); ("antialias", VBool true)]
     (before_init [])).2.

(** A flag mapping with flip_wireframe set and the four independent
    keys, but without the two other modes. *)
Definition flags_flip_only : gmap string PyVal :=
  <["flip_wireframe" := VBool true]>
  (<["shadows" := VBool false]>
  (<["vertex_normals" := VBool true]>
  (<["face_normals" := VBool false]>
  (<["cull_faces" := VBool true]> ∅)))).

(** The triangle as a file with vertex colours gives it. *)
Definition painted_triangle : Driver.Mesh :=
  {| Driver.v := Driver.v triangle; Driver.f := Driver.f triangle;
     Driver.vc := Some three_colors |}.

(** * Properties of [OffscreenRenderer] *)

Section OffscreenRendererFacts.
Context `{PI : PyIntOfStr} `{PF : PyFloat} `{RF : RenderFlags} `{L : !Library}.
Local Open Scope py_scope.

(** ** Running statements *)

Lemma bind_ok {A B} (m : M A) (k : A -> M B) s a s' :
  m s = (Ok a, s') -> bind m k s = k a s'.
Proof. intros E. unfold bind. now rewrite E. Qed.

Lemma bind_raise {A B} (m : M A) (k : A -> M B) s e s' :
  m s = (Raise e, s') -> bind m k s = (Raise e, s').
Proof. intros E. unfold bind. now rewrite E. Qed.

Lemma deref_ref {A} (field : Self -> attr A) s a :
  field (self s) = Ref a -> deref field s = (Ok a, s).
Proof. intros E. unfold deref. now rewrite E. Qed.

Lemma deref_not_ref {A} (field : Self -> attr A) s :
  (forall a, field (self s) <> Ref a) -> deref field s = (Raise AttributeError, s).
Proof.
  intros E. unfold deref. destruct (field (self s)) eqn:F; try reflexivity.
  now destruct (E a).
Qed.

Lemma call_returns (c : Call) s :
  raises (trace (world s)) c = None ->
  call c s = (Ok (LibValue (length (trace (world s)))), with_world (log_call c) s).
Proof. intros E. unfold call. now rewrite E. Qed.

Lemma call_raises (c : Call) s e :
  raises (trace (world s)) c = Some e -> call c s = (Raise e, s).
Proof. intros E. unfold call. now rewrite E. Qed.

Lemma call_quiet (c : Call) s :
  never_raises ->
  call c s = (Ok (LibValue (length (trace (world s)))), with_world (log_call c) s).
Proof. intros Q. apply call_returns, Q. Qed.

Lemma getattr_bound {A} (field : Self -> option A) s a :
  field (self s) = Some a -> getattr field s = (Ok a, s).
Proof. intros E. unfold getattr. now rewrite E. Qed.

(** Unfolds the statements down to matches on the state. *)
Ltac py_unfold :=
  unfold render, render_resize, render_sync, render_dispatch, assign_renderer,
    _create, delete, new_platform, new_renderer, get_device_by_index,
    viewport_width, viewport_height, point_size, render_flag, render_flags,
    set_viewport_width, set_viewport_height, set_point_size, set_render_flags,
    os_environ, fresh_id, call, getattr, deref, modify_self, lift,
    bind, ret, raise, with_self, with_world, log_call, take_id in *.

(** Runs a statement, rewriting with [tac] whatever the hypotheses settle:
    attribute reads, environment lookups and the library's answers. *)
Ltac py_run tac :=
  py_unfold;
  repeat (progress (cbn; tac)).

(** ** [_create] *)

Lemma _create_returns s b w h :
  never_raises ->
  selects (environ (world s)) b ->
  _viewport_width (self s) = Some w ->
  _viewport_height (self s) = Some h ->
  _create s = (Ok tt, created b w h s).
Proof.
  intros Q Hsel Hw Hh.
  destruct s as [[env plat nid tr] o]; cbn in *.
  unfold created, create_calls, log_calls, take_id, log_call.
  destruct Hsel as [E | i E Ei | E];
    py_run ltac:(rewrite ?Q, ?E, ?Ei, ?Hw, ?Hh).
  all: now rewrite <- ?app_assoc.
Qed.

Lemma _create_unsupported s name :
  environ (world s) !! "PYOPENGL_PLATFORM" = Some name ->
  name <> "egl" -> name <> "osmesa" ->
  _create s = (Raise ValueError, s).
Proof.
  intros E N1 N2. py_unfold. cbn. rewrite E.
  apply String.eqb_neq in N1, N2. now rewrite N1, N2.
Qed.

(** ** [delete] and [__del__] *)

Lemma delete_returns s r p :
  never_raises ->
  _renderer (self s) = Ref r ->
  _platform (self s) = Ref p ->
  delete s = (Ok tt, deleted r p s).
Proof.
  intros Q Hr Hp.
  destruct s as [[env plat nid tr] o]; cbn in *.
  unfold deleted, log_calls.
  py_run ltac:(rewrite ?Q, ?Hr, ?Hp).
  now rewrite <- ?app_assoc.
Qed.

Lemma delete_without_renderer s :
  (forall r, _renderer (self s) <> Ref r) ->
  delete s = (Raise AttributeError, s).
Proof.
  intros E. unfold delete.
  apply bind_raise, deref_not_ref, E.
Qed.

Lemma delete_ok_inv s s' :
  delete s = (Ok tt, s') ->
  _renderer (self s') = Null /\ _platform (self s') = Null.
Proof.
  unfold delete, bind, deref, call, modify_self.
  destruct (_renderer (self s)); try discriminate.
  destruct (raises _ _); try discriminate. cbn.
  destruct (_platform (self s)); try discriminate.
  destruct (raises _ _); try discriminate. cbn.
  intros [= <-]. now cbn.
Qed.

(** C8.  On an object whose renderer and platform are both bound to
    objects, and with a library in which the two release calls return,
    [delete()] returns; the log grows by exactly the renderer's [delete]
    followed by the platform's [delete_context]; afterwards [_renderer] and
    [_platform] are both [None]. *)
Theorem delete_releases_renderer_then_context (s : State) (r : Renderer) (p : Platform) :
  _renderer (self s) = Ref r ->
  _platform (self s) = Ref p ->
  raises (trace (world s)) (CRendererDelete (r_id r)) = None ->
  raises (trace (world s) ++ [CRendererDelete (r_id r)]) (CDeleteContext (p_id p)) = None ->
  exists s',
    delete s = (Ok tt, s') /\
    trace (world s') =
      trace (world s) ++ [CRendererDelete (r_id r); CDeleteContext (p_id p)] /\
    _renderer (self s') = Null /\
    _platform (self s') = Null.
Proof.
  intros Hr Hp Q1 Q2.
  unfold delete, bind, deref, call, modify_self, with_world, with_self, log_call.
  rewrite Hr, Q1. cbn. rewrite Hp. cbn. rewrite Q2. cbn.
  eexists; split; [reflexivity|]. cbn.
  rewrite <- app_assoc. now cbn.
Qed.

(** C1, as the code has it.  After a [delete()] that returned, a second
    [delete()] raises [AttributeError], because [_renderer] is [None], and
    changes nothing; the destructor run on that state returns. *)
Theorem second_delete_raises (s s' : State) :
  delete s = (Ok tt, s') ->
  delete s' = (Raise AttributeError, s') /\ __del__ s' = (Ok tt, s').
Proof.
  intros E. apply delete_ok_inv in E as [Hr _].
  assert (D : delete s' = (Raise AttributeError, s')).
  { apply delete_without_renderer. intros r. rewrite Hr. discriminate. }
  split; [exact D|].
  unfold __del__, try_except. now rewrite D.
Qed.



(** ** [render]: settling the viewport *)

Lemma render_resize_restarts s p r w h b :
  never_raises ->
  _platform (self s) = Ref p ->
  _renderer (self s) = Ref r ->
  _viewport_width (self s) = Some w ->
  _viewport_height (self s) = Some h ->
  viewport_changed p w h = true ->
  supports_framebuffers (p_backend p) = false ->
  selects (environ (world s)) b ->
  render_resize s =
    (Ok tt, created b w h (deleted r p (with_world (log_call (CMakeCurrent (p_id p))) s))).
Proof.
  intros Q Hp Hr Hw Hh Hc Hfb Hsel.
  unfold render_resize.
  rewrite (bind_ok _ _ _ _ _ (deref_ref _ _ _ Hp)).
  rewrite (bind_ok _ _ _ _ _ (call_quiet _ _ Q)).
  set (s1 := with_world (log_call (CMakeCurrent (p_id p))) s).
  assert (Hp1 : _platform (self s1) = Ref p) by exact Hp.
  assert (Hr1 : _renderer (self s1) = Ref r) by exact Hr.
  assert (Hw1 : _viewport_width (self s1) = Some w) by exact Hw.
  assert (Hh1 : _viewport_height (self s1) = Some h) by exact Hh.
  rewrite (bind_ok _ _ _ _ _ (deref_ref _ _ _ Hp1)).
  unfold viewport_height at 1.
  rewrite (bind_ok _ _ _ _ _ (getattr_bound _ _ _ Hh1)).
  assert (Hchanged :
    (if py_ne (p_viewport_height p) h then ret true
     else p0 <- deref _platform ;; w0 <- viewport_width ;;
          ret (py_ne (p_viewport_width p0) w0)) s1 = (Ok true, s1)).
  { unfold viewport_changed in Hc.
    destruct (py_ne (p_viewport_height p) h); [reflexivity|].
    rewrite (bind_ok _ _ _ _ _ (deref_ref _ _ _ Hp1)).
    unfold viewport_width.
    rewrite (bind_ok _ _ _ _ _ (getattr_bound _ _ _ Hw1)).
    cbn in Hc. unfold ret. now rewrite Hc. }
  rewrite (bind_ok _ _ _ _ _ Hchanged).
  rewrite (bind_ok _ _ _ _ _ (deref_ref _ _ _ Hp1)).
  rewrite Hfb. cbn [negb].
  rewrite (bind_ok _ _ _ _ _ (delete_returns _ _ _ Q Hr1 Hp1)).
  apply _create_returns; auto.
Qed.

Lemma render_resize_keeps s p w h :
  never_raises ->
  _platform (self s) = Ref p ->
  _viewport_width (self s) = Some w ->
  _viewport_height (self s) = Some h ->
  viewport_changed p w h = false \/ supports_framebuffers (p_backend p) = true ->
  render_resize s = (Ok tt, with_world (log_call (CMakeCurrent (p_id p))) s).
Proof.
  intros Q Hp Hw Hh Hc.
  destruct s as [[env plat nid tr] o]; cbn in *.
  unfold viewport_changed in Hc.
  py_run ltac:(rewrite ?Q, ?Hp, ?Hw, ?Hh).
  destruct (py_ne (p_viewport_height p) h); cbn in *;
    py_run ltac:(rewrite ?Q, ?Hp, ?Hw, ?Hh).
  - destruct Hc as [Hc | ->]; [discriminate | reflexivity].
  - destruct (py_ne (p_viewport_width p) w); cbn in *;
      py_run ltac:(rewrite ?Q, ?Hp, ?Hw, ?Hh); [|reflexivity].
    destruct Hc as [Hc | ->]; [discriminate | reflexivity].
Qed.

Lemma render_sync_returns s p r w h ps :
  never_raises ->
  _platform (self s) = Ref p ->
  _renderer (self s) = Ref r ->
  _viewport_width (self s) = Some w ->
  _viewport_height (self s) = Some h ->
  _point_size (self s) = Some ps ->
  render_sync s =
    (Ok tt,
     with_self (bind_renderer (Ref (synced w h ps r)))
       (with_world (log_call (CMakeCurrent (p_id p))) s)).
Proof.
  intros Q Hp Hr Hw Hh Hps.
  destruct s as [[env plat nid tr] o]; cbn in *.
  py_run ltac:(rewrite ?Q, ?Hp, ?Hr, ?Hw, ?Hh, ?Hps).
  destruct o; cbn in *. reflexivity.
Qed.

(** ** The invariant *)

Lemma keeps_bind {A B} (m : M A) (k : A -> M B) :
  keeps m -> (forall a, keeps (k a)) -> keeps (bind m k).
Proof.
  intros Hm Hk s I. unfold bind.
  specialize (Hm s I). destruct (m s) as [[a|e] s1]; [|exact Hm].
  apply (Hk a s1 Hm).
Qed.

Lemma keeps_ret {A} (a : A) : keeps (ret a).
Proof. intros s I. exact I. Qed.

Lemma keeps_raise {A} (e : exn) : keeps (raise (A := A) e).
Proof. intros s I. exact I. Qed.

Lemma keeps_lift {A} (r : result A) : keeps (lift r).
Proof. intros s I. unfold lift. now destruct r. Qed.

Lemma keeps_getattr {A} (field : Self -> option A) : keeps (getattr field).
Proof. intros s I. unfold getattr. now destruct (field (self s)). Qed.

Lemma keeps_deref {A} (field : Self -> attr A) : keeps (deref field).
Proof. intros s I. unfold deref. now destruct (field (self s)). Qed.

Lemma keeps_call (c : Call) : keeps (call c).
Proof. intros s I. unfold call. now destruct (raises _ _). Qed.

Lemma keeps_os_environ : keeps os_environ.
Proof. intros s I. exact I. Qed.

Lemma keeps_sys_platform_is name : keeps (sys_platform_is name).
Proof. intros s I. exact I. Qed.

Lemma keeps_for_each {A} (l : list A) (body : A -> M unit) :
  (forall a, keeps (body a)) -> keeps (for_each l body).
Proof.
  intros Hb. induction l as [|a l IH]; cbn [for_each].
  - apply keeps_ret.
  - apply keeps_bind; auto.
Qed.

(** Solves the goals left once a statement is run to its end: the
    invariant of a state built from one that has it. *)
Ltac invariant_holds :=
  match goal with
  | I : invariant _ |- _ =>
      destruct I as [(Tw & Th & Tp) [Ip Ir]];
      cbn in *;
      repeat split; cbn; eauto;
      try (intros ? [= <-]; cbn; lia);
      try (intros ? E; first [apply Ip in E | apply Ir in E]; lia);
      try discriminate
  end.

(** Runs a statement on a state with the invariant, one case per way it
    can go. *)
Ltac keeps_by_cases :=
  let s := fresh "s" in
  let I := fresh "I" in
  intros s I; destruct s as [[? ? ? ?] ?];
  py_unfold; cbn;
  repeat match goal with
    | |- context [match ?x with _ => _ end] =>
        lazymatch x with
        | context [match _ with _ => _ end] => fail
        | _ => destruct x eqn:?; cbn
        end
    end;
  invariant_holds.

Lemma keeps_set_viewport_width value : keeps (set_viewport_width value).
Proof. keeps_by_cases. Qed.

Lemma keeps_set_viewport_height value : keeps (set_viewport_height value).
Proof. keeps_by_cases. Qed.

Lemma keeps_set_point_size value : keeps (set_point_size value).
Proof. keeps_by_cases. Qed.

Lemma keeps_bind_render_flags d : keeps (modify_self (bind_render_flags d)).
Proof. keeps_by_cases. Qed.

Lemma keeps_unbind_platform : keeps (modify_self (bind_platform Null)).
Proof. keeps_by_cases. Qed.

Lemma keeps_unbind_renderer : keeps (modify_self (bind_renderer Null)).
Proof. keeps_by_cases. Qed.

Lemma keeps_assign_renderer (f : Renderer -> Renderer) :
  (forall r, r_id (f r) = r_id r) -> keeps (assign_renderer f).
Proof.
  intros Hf. keeps_by_cases.
  intros ? [= <-]. rewrite Hf. apply Ir. assumption.
Qed.

Lemma keeps_delete : keeps delete.
Proof. keeps_by_cases. Qed.

Lemma keeps__create : keeps _create.
Proof. keeps_by_cases. Qed.

Lemma keeps_render_flag key : keeps (render_flag key).
Proof. keeps_by_cases. Qed.

(** Applies the rules above along the structure of a statement. *)
Ltac keeps_auto :=
  repeat first
    [ apply keeps_delete | apply keeps__create
    | apply keeps_render_flag
    | apply keeps_assign_renderer; reflexivity
    | apply keeps_bind_render_flags
    | apply keeps_unbind_platform | apply keeps_unbind_renderer
    | apply keeps_ret | apply keeps_raise | apply keeps_lift
    | apply keeps_getattr | apply keeps_deref | apply keeps_call
    | apply keeps_os_environ | apply keeps_sys_platform_is
    | apply keeps_bind; [|intros ?]
    | match goal with
      | |- keeps (if ?b then _ else _) => destruct b
      | |- keeps (match ?x with _ => _ end) => destruct x
      end ].

Lemma keeps_translate_flags flags : keeps (translate_flags flags).
Proof. unfold translate_flags, translate_mode. keeps_auto. Qed.

Lemma keeps_render_resize : keeps render_resize.
Proof. unfold render_resize, viewport_height, viewport_width. keeps_auto. Qed.

Lemma keeps_render_sync : keeps render_sync.
Proof.
  unfold render_sync, viewport_height, viewport_width, point_size. keeps_auto.
Qed.

Lemma keeps_render_dispatch scene flags : keeps (render_dispatch scene flags).
Proof. unfold render_dispatch. keeps_auto. Qed.

Lemma keeps_render scene flags : keeps (render scene flags).
Proof.
  unfold render.
  apply keeps_bind; [apply keeps_render_resize | intros _].
  apply keeps_bind; [apply keeps_render_sync | intros _].
  apply keeps_bind; [apply keeps_translate_flags | intros flags'].
  apply keeps_render_dispatch.
Qed.

Lemma keeps_perform a : keeps (perform a).
Proof.
  destruct a; cbn [perform].
  - apply keeps_set_viewport_width.
  - apply keeps_set_viewport_height.
  - apply keeps_set_point_size.
  - apply keeps_bind_render_flags.
  - apply keeps_bind; [apply keeps_render | intros; apply keeps_ret].
  - apply keeps_delete.
  - keeps_by_cases.
Qed.

(** [__init__] establishes the invariant when it returns. *)
Lemma init_invariant w vw vh ps flags kwargs s :
  __init__ vw vh ps flags kwargs {| world := w; self := unbound |} = (Ok tt, s) ->
  invariant s.
Proof.
  unfold __init__.
  set (rest := bind (modify_self (bind_default_render_flags default_render_flags)) _).
  assert (K : keeps rest).
  { subst rest.
    apply keeps_bind; [keeps_by_cases | intros _]. unfold render_flags.
    keeps_auto.
    apply keeps_for_each. intros kv. keeps_auto. }
  clearbody rest.
  unfold set_viewport_width, set_viewport_height, set_point_size,
    bind, lift, modify_self.
  destruct (py_int vw) as [zw|]; [|discriminate].
  destruct (py_int vh) as [zh|]; [|discriminate].
  destruct (py_float ps) as [x|]; [|discriminate].
  cbn.
  match goal with |- rest ?s3 = _ -> _ => intros E; pose proof (K s3) as K3 end.
  rewrite E in K3. apply K3.
  repeat split; cbn; eauto; discriminate.
Qed.

Lemma reachable_invariant s : reachable s -> invariant s.
Proof.
  induction 1 as [w vw vh ps flags kwargs s E | s a R IH].
  - eapply init_invariant, E.
  - pose proof (keeps_perform a s IH) as K.
    destruct (perform a s) as [[[]|e] s1]; exact K.
Qed.

(** ** [render]: the flags *)

Lemma stateless_bind {A B} (m : M A) (k : A -> M B) :
  stateless m -> (forall a, stateless (k a)) -> stateless (bind m k).
Proof.
  intros Hm Hk s. unfold bind. specialize (Hm s).
  destruct (m s) as [[a|e] s1]; cbn in *; subst; [apply Hk | reflexivity].
Qed.

Lemma stateless_ret {A} (a : A) : stateless (ret a).
Proof. intros s. reflexivity. Qed.

Lemma stateless_render_flag key : stateless (render_flag key).
Proof.
  intros s. unfold render_flag, render_flags, getattr, bind, ret, raise.
  destruct (_render_flags (self s)) as [d|]; [|reflexivity].
  now destruct (d !! key).
Qed.

Lemma stateless_translate_flags flags : stateless (translate_flags flags).
Proof.
  unfold translate_flags, translate_mode.
  repeat first
    [ apply stateless_render_flag | apply stateless_ret
    | apply stateless_bind; [|intros ?]
    | match goal with |- stateless (if ?b then _ else _) => destruct b end ].
Qed.

Lemma render_flag_bound s d key b :
  _render_flags (self s) = Some d ->
  d !! key = Some b ->
  render_flag key s = (Ok b, s).
Proof.
  intros Hd Hk. unfold render_flag, render_flags, getattr, bind, ret.
  now rewrite Hd, Hk.
Qed.

(** Once the mode is chosen, the flags that do not exclude one another add
    their bits whatever the mode was. *)
Lemma translate_flags_after_mode s d flags mode :
  _render_flags (self s) = Some d ->
  (forall key, In key ["shadows"; "vertex_normals"; "face_normals"; "cull_faces"] ->
     is_Some (d !! key)) ->
  translate_mode flags s = (Ok (Z.lor flags mode), s) ->
  translate_flags flags s =
    (Ok (Z.lor flags (Z.lor mode (independent_bits d))), s).
Proof.
  intros Hd Hkeys Hmode.
  destruct (Hkeys "shadows") as [b1 E1]; [cbn; tauto|].
  destruct (Hkeys "vertex_normals") as [b2 E2]; [cbn; tauto|].
  destruct (Hkeys "face_normals") as [b3 E3]; [cbn; tauto|].
  destruct (Hkeys "cull_faces") as [b4 E4]; [cbn; tauto|].
  unfold translate_flags.
  rewrite (bind_ok _ _ _ _ _ Hmode).
  rewrite (bind_ok _ _ _ _ _ (render_flag_bound _ _ _ _ Hd E1)).
  unfold ret at 1. unfold bind at 1.
  rewrite (bind_ok _ _ _ _ _ (render_flag_bound _ _ _ _ Hd E2)).
  unfold ret at 1. unfold bind at 1.
  rewrite (bind_ok _ _ _ _ _ (render_flag_bound _ _ _ _ Hd E3)).
  unfold ret at 1. unfold bind at 1.
  rewrite (bind_ok _ _ _ _ _ (render_flag_bound _ _ _ _ Hd E4)).
  unfold ret, bind. unfold independent_bits. rewrite E1, E2, E3, E4.
  do 2 f_equal.
  destruct (py_truthy b1), (py_truthy b2), (py_truthy b3), (py_truthy b4);
    cbn [Bool.eqb negb];
    rewrite ?Z.lor_0_r, ?Z.lor_0_l, ?Z.lor_assoc; reflexivity.
Qed.

(** C2.  With the flags that do not exclude one another present in the
    mapping, [render] hands down the bits of [flags], the bits of those
    flags and exactly one mode bit: [FLIP_WIREFRAME] when flip_wireframe,
    all_wireframe and all_solid are all true, [ALL_WIREFRAME] when
    flip_wireframe is false and all_wireframe is true, [ALL_SOLID] when
    only all_solid is true. *)
Theorem translate_flags_priority (s : State) (d : gmap string PyVal) (flags : Z) :
  _render_flags (self s) = Some d ->
  (forall key, In key ["shadows"; "vertex_normals"; "face_normals"; "cull_faces"] ->
     is_Some (d !! key)) ->
  (flag_is d "flip_wireframe" true ->
   flag_is d "all_wireframe" true ->
   flag_is d "all_solid" true ->
   translate_flags flags s =
     (Ok (Z.lor flags (Z.lor FLIP_WIREFRAME (independent_bits d))), s)) /\
  (flag_is d "flip_wireframe" false ->
   flag_is d "all_wireframe" true ->
   translate_flags flags s =
     (Ok (Z.lor flags (Z.lor ALL_WIREFRAME (independent_bits d))), s)) /\
  (flag_is d "flip_wireframe" false ->
   flag_is d "all_wireframe" false ->
   flag_is d "all_solid" true ->
   translate_flags flags s =
     (Ok (Z.lor flags (Z.lor ALL_SOLID (independent_bits d))), s)).
Proof.
  intros Hd Hkeys. repeat split.
  - intros (b & Eb & Tb) _ _.
    apply translate_flags_after_mode; auto. unfold translate_mode.
    rewrite (bind_ok _ _ _ _ _ (render_flag_bound _ _ _ _ Hd Eb)).
    now rewrite Tb.
  - intros (b & Eb & Tb) (b' & Eb' & Tb').
    apply translate_flags_after_mode; auto. unfold translate_mode.
    rewrite (bind_ok _ _ _ _ _ (render_flag_bound _ _ _ _ Hd Eb)).
    rewrite Tb.
    rewrite (bind_ok _ _ _ _ _ (render_flag_bound _ _ _ _ Hd Eb')).
    now rewrite Tb'.
  - intros (b & Eb & Tb) (b' & Eb' & Tb') (b'' & Eb'' & Tb'').
    apply translate_flags_after_mode; auto. unfold translate_mode.
    rewrite (bind_ok _ _ _ _ _ (render_flag_bound _ _ _ _ Hd Eb)).
    rewrite Tb.
    rewrite (bind_ok _ _ _ _ _ (render_flag_bound _ _ _ _ Hd Eb')).
    rewrite Tb'.
    rewrite (bind_ok _ _ _ _ _ (render_flag_bound _ _ _ _ Hd Eb'')).
    now rewrite Tb''.
Qed.

Lemma reads_flags_bind {A B} (m : M A) (k : A -> M B) :
  stateless m -> reads_flags m -> (forall a, reads_flags (k a)) ->
  reads_flags (bind m k).
Proof.
  intros Sm Rm Rk s s' E. unfold bind.
  pose proof (Sm s) as E1. pose proof (Sm s') as E2. pose proof (Rm s s' E) as E3.
  destruct (m s) as [ra s1], (m s') as [ra' s1']; cbn in *; subst.
  destruct ra as [a|e]; [apply Rk, E | reflexivity].
Qed.

Lemma reads_flags_ret {A} (a : A) : reads_flags (ret a).
Proof. intros s s' E. reflexivity. Qed.

Lemma reads_flags_render_flag key : reads_flags (render_flag key).
Proof.
  intros s s' E. unfold render_flag, render_flags, getattr, bind, ret, raise.
  rewrite E. destruct (_render_flags (self s)) as [d|]; [|reflexivity].
  now destruct (d !! key).
Qed.

Lemma reads_flags_translate_flags flags : reads_flags (translate_flags flags).
Proof.
  unfold translate_flags, translate_mode.
  repeat first
    [ apply reads_flags_render_flag | apply reads_flags_ret
    | apply stateless_render_flag | apply stateless_ret
    | apply reads_flags_bind; [| |intros ?]
    | apply stateless_bind; [|intros ?]
    | match goal with
      | |- reads_flags (if ?b then _ else _) => destruct b
      | |- stateless (if ?b then _ else _) => destruct b
      end ].
Qed.

(** ** [render]: the library calls and what is returned *)

Lemma render_dispatch_returns s p r scene flags :
  never_raises ->
  _platform (self s) = Ref p ->
  _renderer (self s) = Ref r ->
  let n := length (trace (world s)) in
  render_dispatch scene flags s =
    if supports_framebuffers (p_backend p) then
      (Ok (OutValue (LibValue n)),
       with_world
         (log_calls [CRendererRender (r_id r) scene (Z.lor flags OFFSCREEN)]) s)
    else if (Z.land flags DEPTH_ONLY =? 0)%Z then
      (Ok (OutPair (LibValue (S (S n))) (LibValue (S n))),
       with_world
         (log_calls [CRendererRender (r_id r) scene flags;
                     CReadDepthBuf (r_id r); CReadColorBuf (r_id r)]) s)
    else
      (Ok (OutValue (LibValue (S n))),
       with_world
         (log_calls [CRendererRender (r_id r) scene flags;
                     CReadDepthBuf (r_id r)]) s).
Proof.
  intros Q Hp Hr n. subst n.
  destruct s as [[env plat nid tr] o]; cbn in *.
  unfold log_calls.
  py_run ltac:(rewrite ?Q, ?Hp, ?Hr).
  destruct (supports_framebuffers (p_backend p));
    py_run ltac:(rewrite ?Q, ?Hp, ?Hr); [reflexivity|].
  destruct (Z.land flags DEPTH_ONLY =? 0)%Z;
    py_run ltac:(rewrite ?Q, ?Hp, ?Hr);
    rewrite ?length_app; cbn; rewrite <- ?app_assoc; cbn;
    repeat f_equal; lia.
Qed.

(** Whatever the library does, the last part of [render] leaves the object
    alone and logs nothing but render calls. *)
Lemma render_dispatch_frame s scene flags :
  let s' := (render_dispatch scene flags s).2 in
  self s' = self s /\
  exists calls,
    trace (world s') = trace (world s) ++ calls /\ Forall is_render_call calls.
Proof.
  destruct s as [[env plat nid tr] o].
  py_unfold; cbn.
  repeat match goal with
    | |- context [match ?x with _ => _ end] =>
        lazymatch x with
        | context [match _ with _ => _ end] => fail
        | _ => destruct x eqn:?; cbn
        end
    | |- context [if ?x then _ else _] =>
        lazymatch x with
        | context [match _ with _ => _ end] => fail
        | _ => destruct x eqn:?; cbn
        end
    end;
  (split; [reflexivity|]);
  rewrite <- ?app_assoc; cbn;
  first [ exists []; split; [now rewrite app_nil_r | constructor]
        | eexists; split; [reflexivity|]; repeat constructor ].
Qed.

Lemma render_after_settling s s1 s2 scene flags :
  render_resize s = (Ok tt, s1) ->
  render_sync s1 = (Ok tt, s2) ->
  render scene flags s =
    bind (translate_flags flags) (render_dispatch scene) s2.
Proof.
  intros E1 E2. unfold render.
  rewrite (bind_ok _ _ _ _ _ E1). now rewrite (bind_ok _ _ _ _ _ E2).
Qed.

Lemma render_tail_frame s scene flags :
  let s' := (bind (translate_flags flags) (render_dispatch scene) s).2 in
  self s' = self s /\
  exists calls,
    trace (world s') = trace (world s) ++ calls /\ Forall is_render_call calls.
Proof.
  unfold bind. pose proof (stateless_translate_flags flags s) as E.
  destruct (translate_flags flags s) as [[flags'|e] s1]; cbn in E; subst s1.
  - apply render_dispatch_frame.
  - cbn. split; [reflexivity|]. exists []. now rewrite app_nil_r.
Qed.

(** ** Construction, resizing and results *)

(** C3, as the code has it.  [_create] is the last statement of [__init__].
    With the viewport set and a library whose calls return: without
    [PYOPENGL_PLATFORM] it builds a Pyglet platform; with ["egl"] and an
    [EGL_DEVICE_ID] that [int] reads as [i], or its default ['0'] when it is
    unset, an EGL platform on the device of index [i], which is 0 when the
    variable is unset; with ["osmesa"] an OSMesa platform.  With ["egl"] and
    an [EGL_DEVICE_ID] that [int] rejects, and with any other platform name,
    it raises [ValueError] and builds nothing. *)
Theorem create_selects_backend (s : State) (w h : PyVal) :
  never_raises ->
  _viewport_width (self s) = Some w ->
  _viewport_height (self s) = Some h ->
  let env := environ (world s) in
  (env !! "PYOPENGL_PLATFORM" = None ->
   _create s = (Ok tt, created PygletPlatform w h s)) /\
  (forall i,
     env !! "PYOPENGL_PLATFORM" = Some "egl" ->
     int_of_str (default "0" (env !! "EGL_DEVICE_ID")) = Some i ->
     _create s = (Ok tt, created (EGLPlatform {| device_index := i |}) w h s)) /\
  (env !! "PYOPENGL_PLATFORM" = Some "egl" ->
   env !! "EGL_DEVICE_ID" = None ->
   _create s = (Ok tt, created (EGLPlatform {| device_index := 0 |}) w h s)) /\
  (env !! "PYOPENGL_PLATFORM" = Some "osmesa" ->
   _create s = (Ok tt, created OSMesaPlatform w h s)) /\
  (env !! "PYOPENGL_PLATFORM" = Some "egl" ->
   int_of_str (default "0" (env !! "EGL_DEVICE_ID")) = None ->
   _create s = (Raise ValueError, s)) /\
  (forall name,
     env !! "PYOPENGL_PLATFORM" = Some name ->
     name <> "egl" -> name <> "osmesa" ->
     _create s = (Raise ValueError, s)).
Proof.
  intros Q Hw Hh env. subst env. repeat split.
  - intros E. apply _create_returns; auto. now constructor.
  - intros i E Ei. apply _create_returns; auto. now constructor.
  - intros E Ed. apply _create_returns; auto. constructor; [exact E|].
    rewrite Ed. apply int_of_str_0.
  - intros E. apply _create_returns; auto. now constructor.
  - intros E Ei. py_unfold. cbn. rewrite E. cbn. now rewrite Ei.
  - intros name E N1 N2. now apply _create_unsupported with name.
Qed.

(** C10.  Each of the three setters stores the coercion of its argument, an
    int for the viewport and a float for the point size, whenever the
    coercion accepts the argument; and in every state of an object that was
    constructed and then used, the viewport is held as two ints and the
    point size as a float. *)
Theorem viewport_attributes_typed :
  (forall s value z,
     py_int value = Ok z ->
     set_viewport_width value s =
       (Ok tt, with_self (bind_viewport_width (VInt z)) s)) /\
  (forall s value z,
     py_int value = Ok z ->
     set_viewport_height value s =
       (Ok tt, with_self (bind_viewport_height (VInt z)) s)) /\
  (forall s value x,
     py_float value = Ok x ->
     set_point_size value s =
       (Ok tt, with_self (bind_point_size (VFloat x)) s)) /\
  (forall s, reachable s -> attributes_typed s).
Proof.
  repeat split.
  - intros s value z E. py_unfold. now rewrite E.
  - intros s value z E. py_unfold. now rewrite E.
  - intros s value x E. py_unfold. now rewrite E.
  - now apply reachable_invariant.
  - now apply reachable_invariant.
  - now apply reachable_invariant.
Qed.

(** C4.  Take an object in use whose platform and renderer are alive, a
    library whose calls return and an environment that selects the backend
    [b].  If the platform's size is not the wrapper's and the platform has
    no framebuffers, [render] releases the renderer and the context and
    creates both anew before any render call: the platform is a new object
    of a new identity, and after the call the renderer holds the wrapper's
    width, height and point size.  If the size is unchanged or the platform
    has framebuffers, nothing is released: the platform is the same object
    and the renderer, the same one, holds the wrapper's width, height and
    point size. *)
Theorem render_restarts_backend_on_resize (s : State) (p : Platform) (r : Renderer)
    (w h ps : PyVal) (b : Backend) (scene : Scene) (flags : Z) :
  never_raises ->
  reachable s ->
  _platform (self s) = Ref p ->
  _renderer (self s) = Ref r ->
  _viewport_width (self s) = Some w ->
  _viewport_height (self s) = Some h ->
  _point_size (self s) = Some ps ->
  selects (environ (world s)) b ->
  let s' := (render scene flags s).2 in
  let i := next_id (world s) in
  (viewport_changed p w h = true ->
   supports_framebuffers (p_backend p) = false ->
   i <> p_id p /\
   _platform (self s') =
     Ref {| p_id := i; p_backend := b;
            p_viewport_width := w; p_viewport_height := h |} /\
   _renderer (self s') =
     Ref {| r_id := S i; r_viewport_width := w; r_viewport_height := h;
            r_point_size := Some ps |} /\
   exists calls,
     trace (world s') =
       trace (world s) ++
       [CMakeCurrent (p_id p); CRendererDelete (r_id r); CDeleteContext (p_id p)] ++
       create_calls b w h i ++ [CMakeCurrent i] ++ calls /\
     Forall is_render_call calls) /\
  (viewport_changed p w h = false \/ supports_framebuffers (p_backend p) = true ->
   _platform (self s') = Ref p /\
   _renderer (self s') = Ref (synced w h ps r) /\
   exists calls,
     trace (world s') =
       trace (world s) ++ [CMakeCurrent (p_id p); CMakeCurrent (p_id p)] ++ calls /\
     Forall is_render_call calls).
Proof.
  intros Q R Hp Hr Hw Hh Hps Hsel s' i. subst s' i. split.
  - intros Hc Hfb.
    pose proof (render_resize_restarts s p r w h b Q Hp Hr Hw Hh Hc Hfb Hsel) as E1.
    set (s1 := created b w h _) in E1.
    pose proof (render_sync_returns s1 _ _ w h ps Q eq_refl eq_refl Hw Hh Hps) as E2.
    rewrite (render_after_settling _ _ _ scene flags E1 E2).
    match type of E2 with _ = (_, ?x) => set (s2 := x) in * end.
    destruct (render_tail_frame s2 scene flags) as [Es (calls & Et & Hcalls)].
    rewrite Es, Et. repeat split.
    + apply reachable_invariant in R as [_ [Ip _]].
      specialize (Ip p Hp). lia.
    + exists calls. split; [|exact Hcalls].
      cbn. rewrite <- !app_assoc. reflexivity.
  - intros Hc.
    pose proof (render_resize_keeps s p w h Q Hp Hw Hh Hc) as E1.
    set (s1 := with_world _ s) in E1.
    pose proof (render_sync_returns s1 p r w h ps Q Hp Hr Hw Hh Hps) as E2.
    rewrite (render_after_settling _ _ _ scene flags E1 E2).
    match type of E2 with _ = (_, ?x) => set (s2 := x) in * end.
    destruct (render_tail_frame s2 scene flags) as [Es (calls & Et & Hcalls)].
    rewrite Es, Et. repeat split.
    + exact Hp.
    + exists calls. split; [|exact Hcalls].
      cbn. rewrite <- !app_assoc. reflexivity.
Qed.

Lemma translate_flags_elsewhere s s' flags flags' :
  _render_flags (self s') = _render_flags (self s) ->
  (translate_flags flags s).1 = Ok flags' ->
  translate_flags flags s' = (Ok flags', s').
Proof.
  intros E T.
  pose proof (reads_flags_translate_flags flags s s' E) as E1.
  pose proof (stateless_translate_flags flags s') as E2.
  destruct (translate_flags flags s') as [res s1]; cbn in *.
  now rewrite E1, T, E2.
Qed.

(** C7.  Take an object whose platform and renderer are alive, a library
    whose calls return, an environment that selects the backend [b] and a
    flag mapping that [render] translates, together with [flags], into
    [flags'].  [render] settles the viewport and then, on the platform [p2]
    it has at that point: with framebuffers, it makes the single library
    call [render(scene, flags' | OFFSCREEN)] and returns its value; without
    them, it makes the render pass with [flags'], reads the depth buffer
    and returns it alone if [flags'] has a [DEPTH_ONLY] bit, and otherwise
    reads the colour buffer too and returns the pair (colour, depth). *)
Theorem render_returns_buffers (s : State) (p : Platform) (r : Renderer)
    (w h ps : PyVal) (b : Backend) (scene : Scene) (flags flags' : Z) :
  never_raises ->
  _platform (self s) = Ref p ->
  _renderer (self s) = Ref r ->
  _viewport_width (self s) = Some w ->
  _viewport_height (self s) = Some h ->
  _point_size (self s) = Some ps ->
  selects (environ (world s)) b ->
  (translate_flags flags s).1 = Ok flags' ->
  exists (s2 : State) (p2 : Platform) (r2 : Renderer),
    bind render_resize (fun _ => render_sync) s = (Ok tt, s2) /\
    _platform (self s2) = Ref p2 /\
    _renderer (self s2) = Ref r2 /\
    p_backend p2 =
      (if viewport_changed p w h && negb (supports_framebuffers (p_backend p))
       then b else p_backend p) /\
    let n := length (trace (world s2)) in
    render scene flags s =
      if supports_framebuffers (p_backend p2) then
        (Ok (OutValue (LibValue n)),
         with_world
           (log_calls [CRendererRender (r_id r2) scene (Z.lor flags' OFFSCREEN)]) s2)
      else if (Z.land flags' DEPTH_ONLY =? 0)%Z then
        (Ok (OutPair (LibValue (S (S n))) (LibValue (S n))),
         with_world
           (log_calls [CRendererRender (r_id r2) scene flags';
                       CReadDepthBuf (r_id r2); CReadColorBuf (r_id r2)]) s2)
      else
        (Ok (OutValue (LibValue (S n))),
         with_world
           (log_calls [CRendererRender (r_id r2) scene flags';
                       CReadDepthBuf (r_id r2)]) s2).
Proof.
  intros Q Hp Hr Hw Hh Hps Hsel T.
  assert (Settled : exists s1 s2 p2 r2,
    render_resize s = (Ok tt, s1) /\ render_sync s1 = (Ok tt, s2) /\
    _platform (self s2) = Ref p2 /\ _renderer (self s2) = Ref r2 /\
    _render_flags (self s2) = _render_flags (self s) /\
    p_backend p2 =
      (if viewport_changed p w h && negb (supports_framebuffers (p_backend p))
       then b else p_backend p)).
  { destruct (viewport_changed p w h) eqn:Hc;
      [destruct (supports_framebuffers (p_backend p)) eqn:Hfb|]; cbn [andb negb].
    - pose proof (render_resize_keeps s p w h Q Hp Hw Hh (or_intror Hfb)) as E1.
      pose proof (render_sync_returns
        (with_world (log_call (CMakeCurrent (p_id p))) s)
        p r w h ps Q Hp Hr Hw Hh Hps) as E2.
      do 4 eexists. split; [exact E1|]. split; [exact E2|].
      cbn. split; [first [exact Hp | reflexivity]|].
      split; [reflexivity|]. split; reflexivity.
    - pose proof (render_resize_restarts s p r w h b Q Hp Hr Hw Hh Hc Hfb Hsel) as E1.
      match type of E1 with _ = (_, ?x) =>
        pose proof (render_sync_returns x _ _ w h ps Q eq_refl eq_refl Hw Hh Hps) as E2
      end.
      do 4 eexists. split; [exact E1|]. split; [exact E2|].
      cbn. split; [first [exact Hp | reflexivity]|].
      split; [reflexivity|]. split; reflexivity.
    - pose proof (render_resize_keeps s p w h Q Hp Hw Hh (or_introl Hc)) as E1.
      pose proof (render_sync_returns
        (with_world (log_call (CMakeCurrent (p_id p))) s)
        p r w h ps Q Hp Hr Hw Hh Hps) as E2.
      do 4 eexists. split; [exact E1|]. split; [exact E2|].
      cbn. split; [first [exact Hp | reflexivity]|].
      split; [reflexivity|]. split; reflexivity. }
  destruct Settled as (s1 & s2 & p2 & r2 & E1 & E2 & Hp2 & Hr2 & Hflags & Hb).
  exists s2, p2, r2. split.
  { now rewrite (bind_ok _ _ _ _ _ E1). }
  repeat (split; [assumption|]).
  intros n. subst n.
  rewrite (render_after_settling _ _ _ scene flags E1 E2).
  rewrite (bind_ok _ _ _ _ _ (translate_flags_elsewhere _ _ _ _ Hflags T)).
  now apply render_dispatch_returns.
Qed.

(** ** What the methods leave alone *)

Lemma keeps_settings_bind {A B} (m : M A) (k : A -> M B) :
  keeps_settings m -> (forall a, keeps_settings (k a)) -> keeps_settings (bind m k).
Proof.
  intros Hm Hk s. unfold bind. specialize (Hm s).
  destruct (m s) as [[a|e] s1]; cbn in *; [|exact Hm].
  now rewrite Hk.
Qed.

(** Runs a statement to its end on any state, one case per way it can go,
    and compares the settings. *)
Ltac settings_by_cases :=
  let s := fresh "s" in
  intros s; destruct s as [[? ? ? ?] [? ? ? ? ? ? ?]];
  py_unfold; cbn;
  repeat match goal with
    | |- context [match ?x with _ => _ end] =>
        lazymatch x with
        | context [match _ with _ => _ end] => fail
        | _ => destruct x eqn:?; cbn
        end
    end;
  reflexivity.

Lemma keeps_settings_delete : keeps_settings delete.
Proof. settings_by_cases. Qed.

Lemma keeps_settings__create : keeps_settings _create.
Proof. settings_by_cases. Qed.

Lemma keeps_settings_render_sync : keeps_settings render_sync.
Proof. settings_by_cases. Qed.

Lemma keeps_settings_render_dispatch scene flags :
  keeps_settings (render_dispatch scene flags).
Proof. settings_by_cases. Qed.

Lemma keeps_settings_stateless {A} (m : M A) : stateless m -> keeps_settings m.
Proof. intros Hm s. now rewrite Hm. Qed.

Lemma keeps_settings_render_resize : keeps_settings render_resize.
Proof.
  unfold render_resize.
  repeat first
    [ apply keeps_settings_delete | apply keeps_settings__create
    | apply keeps_settings_bind; [|intros ?]
    | match goal with
      | |- keeps_settings (if ?b then _ else _) => destruct b
      end
    | settings_by_cases ].
Qed.

Lemma keeps_settings_render scene flags : keeps_settings (render scene flags).
Proof.
  unfold render.
  apply keeps_settings_bind; [apply keeps_settings_render_resize | intros _].
  apply keeps_settings_bind; [apply keeps_settings_render_sync | intros _].
  apply keeps_settings_bind;
    [apply keeps_settings_stateless, stateless_translate_flags | intros flags'].
  apply keeps_settings_render_dispatch.
Qed.

(** X1.  [render] and [delete] never change what the user configured: in
    every state and with every library, returning or raising, they leave
    the viewport size, the point size, both flag mappings and the process
    environment as they were. *)
Theorem render_and_delete_keep_settings (s : State) (scene : Scene) (flags : Z) :
  settings (render scene flags s).2 = settings s /\
  settings (delete s).2 = settings s.
Proof.
  split; [apply keeps_settings_render | apply keeps_settings_delete].
Qed.

(** ** [__init__] *)

Lemma modify_self_runs (f : Self -> Self) s :
  modify_self f s = (Ok tt, with_self f s).
Proof. reflexivity. Qed.

(** The loop over the keyword arguments, on any state whose flag mapping is
    bound. *)
Lemma for_each_kwargs (kwargs : list (string * PyVal)) (d : gmap string PyVal) s :
  _render_flags (self s) = Some d ->
  for_each kwargs (fun kv =>
    d <- render_flags ;;
    if decide (is_Some (d !! kv.1)) then
      d <- getattr _render_flags ;;
      modify_self (bind_render_flags (<[kv.1 := kv.2]> d))
    else ret tt) s =
  (Ok tt, with_self (bind_render_flags (update_known kwargs d)) s).
Proof.
  revert d s. induction kwargs as [|kv kwargs IH]; intros d s Hd.
  - destruct s as [w o], o. cbn in Hd. now subst.
  - cbn [for_each]. unfold update_known. cbn [fold_left].
    fold (update_known kwargs
           (if decide (is_Some (d !! kv.1)) then <[kv.1:=kv.2]> d else d)).
    destruct (decide (is_Some (d !! kv.1))) as [Known|Unknown].
    + erewrite bind_ok.
      2:{ unfold render_flags.
          rewrite (bind_ok _ _ _ _ _ (getattr_bound _ _ _ Hd)).
          destruct (decide (is_Some (d !! kv.1))); [|contradiction].
          rewrite (bind_ok _ _ _ _ _ (getattr_bound _ _ _ Hd)).
          apply modify_self_runs. }
      rewrite (IH (<[kv.1:=kv.2]> d)) by reflexivity.
      now destruct s as [w o], o.
    + erewrite bind_ok.
      2:{ unfold render_flags.
          rewrite (bind_ok _ _ _ _ _ (getattr_bound _ _ _ Hd)).
          destruct (decide (is_Some (d !! kv.1))); [contradiction|].
          reflexivity. }
      now apply IH.
Qed.

Lemma set_viewport_width_runs value z s :
  py_int value = Ok z ->
  set_viewport_width value s = (Ok tt, with_self (bind_viewport_width (VInt z)) s).
Proof. intros E. py_unfold. now rewrite E. Qed.

Lemma set_viewport_height_runs value z s :
  py_int value = Ok z ->
  set_viewport_height value s = (Ok tt, with_self (bind_viewport_height (VInt z)) s).
Proof. intros E. py_unfold. now rewrite E. Qed.

Lemma set_point_size_runs value x s :
  py_float value = Ok x ->
  set_point_size value s = (Ok tt, with_self (bind_point_size (VFloat x)) s).
Proof. intros E. py_unfold. now rewrite E. Qed.

(** Once its three coercions succeed, [__init__] is [_create] run on an
    object whose every attribute it has just bound. *)
Lemma __init__runs_create s0 vw vh ps given kwargs zw zh x :
  py_int vw = Ok zw ->
  py_int vh = Ok zh ->
  py_float ps = Ok x ->
  __init__ vw vh ps given kwargs s0 =
    _create
      {| world := world s0;
         self := initialised zw zh x
                   (initial_flags (String.eqb (sys_platform (world s0)) "darwin")
                      given kwargs) |}.
Proof.
  intros Ew Eh Ex. unfold __init__.
  rewrite (bind_ok _ _ _ _ _ (set_viewport_width_runs _ _ _ Ew)).
  rewrite (bind_ok _ _ _ _ _ (set_viewport_height_runs _ _ _ Eh)).
  rewrite (bind_ok _ _ _ _ _ (set_point_size_runs _ _ _ Ex)).
  rewrite (bind_ok _ _ _ _ _ (modify_self_runs _ _)).
  erewrite bind_ok by (apply getattr_bound; reflexivity).
  rewrite (bind_ok _ _ _ _ _ (modify_self_runs _ _)).
  match goal with |- bind _ _ ?st = _ => set (s1 := st) end.
  set (d := match given with
            | Some g => g ∪ default_render_flags
            | None => default_render_flags
            end).
  assert (Given :
    match given with
    | Some g => d0 <- getattr _render_flags ;;
                modify_self (bind_render_flags (g ∪ d0))
    | None => ret tt
    end s1 = (Ok tt, with_self (bind_render_flags d) s1)).
  { subst d. destruct given as [g|].
    - erewrite bind_ok by (apply getattr_bound; reflexivity). reflexivity.
    - subst s1. now destruct s0 as [w o], o. }
  rewrite (bind_ok _ _ _ _ _ Given).
  erewrite bind_ok by (apply (for_each_kwargs kwargs d); reflexivity).
  match goal with |- bind _ _ ?st = _ => set (s2 := st) end.
  assert (Darwin : sys_platform_is "darwin" s2 =
            (Ok (String.eqb (sys_platform (world s0)) "darwin"), s2))
    by reflexivity.
  rewrite (bind_ok _ _ _ _ _ Darwin).
  unfold initial_flags. fold d.
  destruct (String.eqb (sys_platform (world s0)) "darwin").
  - erewrite bind_ok.
    2:{ erewrite bind_ok by (apply getattr_bound; reflexivity).
        apply modify_self_runs. }
    rewrite (bind_ok _ _ _ _ _ (modify_self_runs _ _)).
    rewrite (bind_ok _ _ _ _ _ (modify_self_runs _ _)).
    f_equal.
  - erewrite bind_ok by reflexivity.
    rewrite (bind_ok _ _ _ _ _ (modify_self_runs _ _)).
    rewrite (bind_ok _ _ _ _ _ (modify_self_runs _ _)).
    f_equal.
Qed.

Lemma set_viewport_width_raises value e s :
  py_int value = Raise e -> set_viewport_width value s = (Raise e, s).
Proof. intros E. py_unfold. now rewrite E. Qed.

Lemma set_viewport_height_raises value e s :
  py_int value = Raise e -> set_viewport_height value s = (Raise e, s).
Proof. intros E. py_unfold. now rewrite E. Qed.

Lemma set_point_size_raises value e s :
  py_float value = Raise e -> set_point_size value s = (Raise e, s).
Proof. intros E. py_unfold. now rewrite E. Qed.

(** A construction that returned went through its three coercions and
    through [_create]. *)
Lemma construction_inv s0 vw vh ps given kwargs s :
  __init__ vw vh ps given kwargs s0 = (Ok tt, s) ->
  exists zw zh x,
    py_int vw = Ok zw /\ py_int vh = Ok zh /\ py_float ps = Ok x /\
    _create
      {| world := world s0;
         self := initialised zw zh x
                   (initial_flags (String.eqb (sys_platform (world s0)) "darwin")
                      given kwargs) |} = (Ok tt, s).
Proof.
  intros E.
  destruct (py_int vw) as [zw|e] eqn:Ew.
  2:{ unfold __init__ in E.
      rewrite (bind_raise _ _ _ _ _ (set_viewport_width_raises _ _ _ Ew)) in E.
      discriminate. }
  destruct (py_int vh) as [zh|e] eqn:Eh.
  2:{ unfold __init__ in E.
      rewrite (bind_ok _ _ _ _ _ (set_viewport_width_runs _ _ _ Ew)) in E.
      rewrite (bind_raise _ _ _ _ _ (set_viewport_height_raises _ _ _ Eh)) in E.
      discriminate. }
  destruct (py_float ps) as [x|e] eqn:Ex.
  2:{ unfold __init__ in E.
      rewrite (bind_ok _ _ _ _ _ (set_viewport_width_runs _ _ _ Ew)) in E.
      rewrite (bind_ok _ _ _ _ _ (set_viewport_height_runs _ _ _ Eh)) in E.
      rewrite (bind_raise _ _ _ _ _ (set_point_size_raises _ _ _ Ex)) in E.
      discriminate. }
  exists zw, zh, x. repeat (split; [reflexivity|]).
  now rewrite <- (__init__runs_create s0 vw vh ps given kwargs zw zh x).
Qed.

Lemma construction_flags s0 vw vh ps given kwargs s :
  __init__ vw vh ps given kwargs s0 = (Ok tt, s) ->
  _render_flags (self s) =
    Some (initial_flags (String.eqb (sys_platform (world s0)) "darwin")
            given kwargs).
Proof.
  intros E. apply construction_inv in E as (zw & zh & x & _ & _ & _ & E).
  match type of E with _create ?st = _ =>
    pose proof (keeps_settings__create st) as K
  end.
  rewrite E in K. cbn in K. now injection K.
Qed.

(** *** The mapping the constructor builds *)

Lemma update_known_cons k v kwargs (d : gmap string PyVal) :
  update_known ((k, v) :: kwargs) d =
  update_known kwargs (if decide (is_Some (d !! k)) then <[k := v]> d else d).
Proof. reflexivity. Qed.

Lemma update_known_keys kwargs (d : gmap string PyVal) key :
  is_Some (update_known kwargs d !! key) <-> is_Some (d !! key).
Proof.
  revert d. induction kwargs as [|[k v] kwargs IH]; intros d; [reflexivity|].
  rewrite update_known_cons, IH.
  destruct (decide (is_Some (d !! k))) as [Known|]; [|reflexivity].
  rewrite lookup_insert. destruct (decide (k = key)) as [->|]; [|reflexivity].
  split; [now intros _ | now eexists].
Qed.

Lemma update_known_other kwargs (d : gmap string PyVal) key :
  key ∉ kwargs.*1 -> update_known kwargs d !! key = d !! key.
Proof.
  revert d. induction kwargs as [|[k v] kwargs IH]; intros d Hkey; [reflexivity|].
  cbn in Hkey. apply not_elem_of_cons in Hkey as [Hne Hkey].
  rewrite update_known_cons, IH by assumption.
  destruct (decide (is_Some (d !! k))); [|reflexivity].
  now rewrite lookup_insert_ne.
Qed.

Lemma update_known_given kwargs (d : gmap string PyVal) key value :
  NoDup kwargs.*1 ->
  (key, value) ∈ kwargs ->
  is_Some (d !! key) ->
  update_known kwargs d !! key = Some value.
Proof.
  revert d. induction kwargs as [|[k v] kwargs IH]; intros d Hnd Hin Hknown.
  - now apply elem_of_nil in Hin.
  - cbn in Hnd. apply NoDup_cons in Hnd as [Hfresh Hnd].
    rewrite update_known_cons.
    apply elem_of_cons in Hin as [[= <- <-]|Hin].
    + rewrite update_known_other by assumption.
      destruct (decide (is_Some (d !! key))); [|contradiction].
      apply lookup_insert_eq.
    + apply IH; auto.
      destruct (decide (is_Some (d !! k))); [|assumption].
      rewrite lookup_insert. destruct (decide (k = key)); [now eexists|assumption].
Qed.

Lemma default_render_flags_keys key :
  is_Some (default_render_flags !! key) <->
  In key (mode_keys ++ independent_keys ++ ["point_size"]).
Proof.
  unfold default_render_flags. rewrite !lookup_insert_is_Some', lookup_empty.
  cbn. split.
  - intros H. repeat (destruct H as [<-|H]; [tauto|]). now destruct H.
  - intros H. repeat (destruct H as [<-|H]; [tauto|]). now destruct H.
Qed.

Lemma initial_flags_keys darwin given kwargs key :
  is_Some (initial_flags darwin given kwargs !! key) <->
  is_Some (default_render_flags !! key) \/
  exists g, given = Some g /\ is_Some (g !! key).
Proof.
  unfold initial_flags.
  assert (Base : is_Some (match given with
                          | Some g => g ∪ default_render_flags
                          | None => default_render_flags
                          end !! key) <->
                 is_Some (default_render_flags !! key) \/
                 exists g, given = Some g /\ is_Some (g !! key)).
  { destruct given as [g|].
    - rewrite lookup_union_is_Some. split.
      + intros [H|H]; [right; eauto | now left].
      + intros [H|(g' & [= <-] & H)]; [now right | now left].
    - split; [now left | intros [H|(g & [=] & _)]; exact H]. }
  destruct darwin; [|now rewrite update_known_keys].
  rewrite lookup_insert_is_Some', update_known_keys, Base.
  split; [|tauto].
  intros [<-|H]; [|exact H].
  left. apply default_render_flags_keys. cbn. tauto.
Qed.

(** *** Flags that cannot fail *)

Lemma translate_mode_total s d flags :
  _render_flags (self s) = Some d ->
  (forall key, In key mode_keys -> is_Some (d !! key)) ->
  exists mode, translate_mode flags s = (Ok (Z.lor flags mode), s).
Proof.
  intros Hd Hkeys.
  destruct (Hkeys "flip_wireframe") as [b1 E1]; [cbn; tauto|].
  destruct (Hkeys "all_wireframe") as [b2 E2]; [cbn; tauto|].
  destruct (Hkeys "all_solid") as [b3 E3]; [cbn; tauto|].
  unfold translate_mode.
  rewrite (bind_ok _ _ _ _ _ (render_flag_bound _ _ _ _ Hd E1)).
  destruct (py_truthy b1); [now eexists|].
  rewrite (bind_ok _ _ _ _ _ (render_flag_bound _ _ _ _ Hd E2)).
  destruct (py_truthy b2); [now eexists|].
  rewrite (bind_ok _ _ _ _ _ (render_flag_bound _ _ _ _ Hd E3)).
  destruct (py_truthy b3); [now eexists|].
  exists 0%Z. unfold ret. now rewrite Z.lor_0_r.
Qed.

Lemma translate_flags_total s d flags :
  _render_flags (self s) = Some d ->
  (forall key, In key (mode_keys ++ independent_keys) -> is_Some (d !! key)) ->
  exists flags', translate_flags flags s = (Ok flags', s).
Proof.
  intros Hd Hkeys.
  destruct (translate_mode_total s d flags Hd) as [mode Hmode].
  { intros key Hkey. apply Hkeys, in_or_app. now left. }
  eexists. apply (translate_flags_after_mode s d flags mode Hd); [|exact Hmode].
  intros key Hkey. apply Hkeys, in_or_app. now right.
Qed.

(** X2.  After a construction that returned, the flag mapping holds every
    default key and, beyond those, only the keys of the [render_flags]
    argument: keyword arguments never add a key.  So the flag translation
    of [render] finds every key it looks up, whatever the arguments
    were. *)
Theorem construction_flags_complete (s0 s : State) (vw vh ps : PyVal)
    (given : option (gmap string PyVal)) (kwargs : list (string * PyVal)) :
  __init__ vw vh ps given kwargs s0 = (Ok tt, s) ->
  exists d,
    _render_flags (self s) = Some d /\
    (forall key,
       is_Some (d !! key) <->
       is_Some (default_render_flags !! key) \/
       exists g, given = Some g /\ is_Some (g !! key)) /\
    (forall flags, exists flags', translate_flags flags s = (Ok flags', s)).
Proof.
  intros E. apply construction_flags in E. eexists. split; [exact E|]. split.
  - apply initial_flags_keys.
  - intros flags. apply (translate_flags_total s _ flags E).
    intros key Hkey. apply initial_flags_keys. left.
    apply default_render_flags_keys.
    apply in_app_or in Hkey as [Hkey|Hkey]; apply in_or_app;
      [now left | right; apply in_or_app; now left].
Qed.

(** X3.  After a construction that returned, with the keyword arguments
    that reach [**kwargs] (each name once, none of them a parameter of
    [__init__]): such an argument whose key the mapping knows (a default key
    or a key of [render_flags]) holds the value passed, and a key none of
    them names holds the value of [render_flags], or else the default; on
    macOS the shadows entry is the exception.  In particular [point_size=]
    is the parameter and never reaches the mapping, whose ["point_size"]
    entry stays what [render_flags] or the default says. *)
Theorem construction_kwargs_override (s0 s : State) (vw vh ps : PyVal)
    (given : option (gmap string PyVal)) (kwargs : list (string * PyVal)) :
  __init__ vw vh ps given kwargs s0 = (Ok tt, s) ->
  delivered kwargs ->
  let merged := match given with
                | Some g => g ∪ default_render_flags
                | None => default_render_flags
                end in
  exists d,
    _render_flags (self s) = Some d /\
    d !! "point_size" = merged !! "point_size" /\
    forall key,
      sys_platform (world s0) <> "darwin" \/ key <> "shadows" ->
      (forall value, (key, value) ∈ kwargs -> is_Some (merged !! key) ->
         d !! key = Some value) /\
      (key ∉ kwargs.*1 -> d !! key = merged !! key).
Proof.
  intros E [Hnd Hnames] merged. apply construction_flags in E.
  eexists. split; [exact E|].
  unfold initial_flags. fold merged.
  assert (Look : forall key (m : gmap string PyVal),
    sys_platform (world s0) <> "darwin" \/ key <> "shadows" ->
    (if String.eqb (sys_platform (world s0)) "darwin"
     then <["shadows" := VBool false]> m else m) !! key = m !! key).
  { intros key m Hkey.
    destruct (String.eqb_spec (sys_platform (world s0)) "darwin");
      [|reflexivity].
    destruct Hkey as [Hkey|Hkey]; [contradiction|].
    now rewrite lookup_insert_ne. }
  split.
  - rewrite Look by (right; discriminate).
    apply update_known_other. intros Hin.
    rewrite Forall_forall in Hnames. apply (Hnames _ Hin).
    unfold init_parameters. rewrite !elem_of_cons. tauto.
  - intros key Hkey. rewrite Look by exact Hkey. split.
    + intros value Hin Hknown. now apply update_known_given.
    + intros Hout. now apply update_known_other.
Qed.

(** X4.  On macOS, after a construction that returned, the shadows flag is
    [False] whatever [render_flags] and the keyword arguments said. *)
Theorem construction_on_darwin_disables_shadows (s0 s : State) (vw vh ps : PyVal)
    (given : option (gmap string PyVal)) (kwargs : list (string * PyVal)) :
  __init__ vw vh ps given kwargs s0 = (Ok tt, s) ->
  sys_platform (world s0) = "darwin" ->
  exists d,
    _render_flags (self s) = Some d /\
    d !! "shadows" = Some (VBool false).
Proof.
  intros E Hdarwin. apply construction_flags in E.
  rewrite Hdarwin in E. cbn in E.
  eexists. split; [exact E|]. apply lookup_insert_eq.
Qed.

(** X5.  A construction that cannot go through raises before the library
    is called.  If the width is not coercible, the object is left as it
    was.  If the coercions succeed but [PYOPENGL_PLATFORM] names neither
    egl nor osmesa, [ValueError] is raised, nothing is logged, the platform
    and the renderer are [None], and the destructor then returns. *)
Theorem construction_fails_before_the_library (s0 : State) (vw vh ps : PyVal)
    (given : option (gmap string PyVal)) (kwargs : list (string * PyVal)) :
  (forall e,
     py_int vw = Raise e ->
     __init__ vw vh ps given kwargs s0 = (Raise e, s0)) /\
  (forall zw zh x name,
     py_int vw = Ok zw -> py_int vh = Ok zh -> py_float ps = Ok x ->
     environ (world s0) !! "PYOPENGL_PLATFORM" = Some name ->
     name <> "egl" -> name <> "osmesa" ->
     exists s,
       __init__ vw vh ps given kwargs s0 = (Raise ValueError, s) /\
       trace (world s) = trace (world s0) /\
       _platform (self s) = Null /\
       _renderer (self s) = Null /\
       __del__ s = (Ok tt, s)).
Proof.
  split.
  - intros e E. unfold __init__.
    apply bind_raise, set_viewport_width_raises, E.
  - intros zw zh x name Ew Eh Ex Ename N1 N2.
    rewrite (__init__runs_create s0 vw vh ps given kwargs zw zh x Ew Eh Ex).
    eexists. split; [now apply _create_unsupported with name|].
    cbn. repeat split.
Qed.

(** ** More on the setters, [delete] and [render] *)

(** X6.  On an object in use, each of the three properties reads back what
    is stored, and assigning a property the value just read changes
    nothing: the coercions leave an int an int and a float a float. *)
Theorem properties_round_trip (s : State) :
  reachable s ->
  exists w h ps,
    viewport_width s = (Ok w, s) /\ set_viewport_width w s = (Ok tt, s) /\
    viewport_height s = (Ok h, s) /\ set_viewport_height h s = (Ok tt, s) /\
    point_size s = (Ok ps, s) /\ set_point_size ps s = (Ok tt, s).
Proof.
  intros R. apply reachable_invariant in R as [((zw & Ew) & (zh & Eh) & (x & Ex)) _].
  exists (VInt zw), (VInt zh), (VFloat x).
  destruct s as [w o], o. cbn in Ew, Eh, Ex. subst.
  repeat split.
Qed.

(** X7.  [delete] stops at the first call that fails.  If the renderer's
    [delete] raises, the context is never released and nothing changes.  If
    the renderer's [delete] returns and [delete_context] raises, the
    renderer has been released but both references stay bound. *)
Theorem delete_stops_at_first_failure (s : State) (r : Renderer) (p : Platform)
    (e : exn) :
  _renderer (self s) = Ref r ->
  _platform (self s) = Ref p ->
  (raises (trace (world s)) (CRendererDelete (r_id r)) = Some e ->
   delete s = (Raise e, s)) /\
  (raises (trace (world s)) (CRendererDelete (r_id r)) = None ->
   raises (trace (world s) ++ [CRendererDelete (r_id r)])
     (CDeleteContext (p_id p)) = Some e ->
   delete s = (Raise e, with_world (log_call (CRendererDelete (r_id r))) s)).
Proof.
  intros Hr Hp. split.
  - intros Q. unfold delete.
    rewrite (bind_ok _ _ _ _ _ (deref_ref _ _ _ Hr)).
    apply bind_raise, call_raises, Q.
  - intros Q1 Q2. unfold delete.
    rewrite (bind_ok _ _ _ _ _ (deref_ref _ _ _ Hr)).
    rewrite (bind_ok _ _ _ _ _ (call_returns _ _ Q1)).
    erewrite bind_ok by (apply deref_ref; exact Hp).
    apply bind_raise, call_raises. exact Q2.
Qed.

(** X8.  After a [delete()] that returned, [render] raises
    [AttributeError] at once: the library is not called and nothing
    changes. *)
Theorem render_after_delete_raises (s s' : State) (scene : Scene) (flags : Z) :
  delete s = (Ok tt, s') ->
  render scene flags s' = (Raise AttributeError, s').
Proof.
  intros E. apply delete_ok_inv in E as [_ Hp].
  unfold render, render_resize.
  apply bind_raise, bind_raise, deref_not_ref.
  intros p. rewrite Hp. discriminate.
Qed.

(** [render] up to line 167, on a live object: the viewport is settled, on
    the old platform or on a new one of the wrapper's size. *)
Lemma render_settles s p r w h ps b :
  never_raises ->
  _platform (self s) = Ref p ->
  _renderer (self s) = Ref r ->
  _viewport_width (self s) = Some w ->
  _viewport_height (self s) = Some h ->
  _point_size (self s) = Some ps ->
  selects (environ (world s)) b ->
  exists s1 s2 p2 r2,
    render_resize s = (Ok tt, s1) /\
    render_sync s1 = (Ok tt, s2) /\
    _platform (self s2) = Ref p2 /\
    _renderer (self s2) = Ref r2 /\
    (if viewport_changed p w h && negb (supports_framebuffers (p_backend p))
     then p_viewport_width p2 = w /\ p_viewport_height p2 = h
     else p2 = p /\ r_id r2 = r_id r).
Proof.
  intros Q Hp Hr Hw Hh Hps Hsel.
  destruct (viewport_changed p w h) eqn:Hc;
    [destruct (supports_framebuffers (p_backend p)) eqn:Hfb|]; cbn [andb negb].
  - pose proof (render_resize_keeps s p w h Q Hp Hw Hh (or_intror Hfb)) as E1.
    pose proof (render_sync_returns
      (with_world (log_call (CMakeCurrent (p_id p))) s)
      p r w h ps Q Hp Hr Hw Hh Hps) as E2.
    do 4 eexists. split; [exact E1|]. split; [exact E2|].
    cbn. split; [exact Hp|]. split; [reflexivity|]. now split.
  - pose proof (render_resize_restarts s p r w h b Q Hp Hr Hw Hh Hc Hfb Hsel) as E1.
    match type of E1 with _ = (_, ?x) =>
      pose proof (render_sync_returns x _ _ w h ps Q eq_refl eq_refl Hw Hh Hps) as E2
    end.
    do 4 eexists. split; [exact E1|]. split; [exact E2|].
    cbn. split; [reflexivity|]. split; [reflexivity|]. now split.
  - pose proof (render_resize_keeps s p w h Q Hp Hw Hh (or_introl Hc)) as E1.
    pose proof (render_sync_returns
      (with_world (log_call (CMakeCurrent (p_id p))) s)
      p r w h ps Q Hp Hr Hw Hh Hps) as E2.
    do 4 eexists. split; [exact E1|]. split; [exact E2|].
    cbn. split; [exact Hp|]. split; [reflexivity|]. now split.
Qed.

Lemma translate_flags_anywhere s s' flags :
  _render_flags (self s') = _render_flags (self s) ->
  translate_flags flags s' = ((translate_flags flags s).1, s').
Proof.
  intros E.
  pose proof (reads_flags_translate_flags flags s s' E) as E1.
  pose proof (stateless_translate_flags flags s') as E2.
  destruct (translate_flags flags s') as [res s1]; cbn in *.
  now rewrite E1, E2.
Qed.

Lemma settings_flags s s' :
  settings s' = settings s -> _render_flags (self s') = _render_flags (self s).
Proof. unfold settings. now intros [=]. Qed.

(** X9.  On a live object whose flag mapping lacks ["flip_wireframe"],
    with a library whose calls return, [render] settles the viewport and
    then raises [KeyError] for that key: the state it leaves is the one it
    had when the viewport was settled, so no render pass was made. *)
Theorem render_missing_flag_raises (s : State) (p : Platform) (r : Renderer)
    (w h ps : PyVal) (b : Backend) (d : gmap string PyVal)
    (scene : Scene) (flags : Z) :
  never_raises ->
  _platform (self s) = Ref p ->
  _renderer (self s) = Ref r ->
  _viewport_width (self s) = Some w ->
  _viewport_height (self s) = Some h ->
  _point_size (self s) = Some ps ->
  selects (environ (world s)) b ->
  _render_flags (self s) = Some d ->
  d !! "flip_wireframe" = None ->
  exists s2,
    bind render_resize (fun _ => render_sync) s = (Ok tt, s2) /\
    render scene flags s = (Raise (KeyError "flip_wireframe"), s2).
Proof.
  intros Q Hp Hr Hw Hh Hps Hsel Hd Hkey.
  destruct (render_settles s p r w h ps b Q Hp Hr Hw Hh Hps Hsel)
    as (s1 & s2 & p2 & r2 & E1 & E2 & _).
  exists s2. split; [now rewrite (bind_ok _ _ _ _ _ E1)|].
  rewrite (render_after_settling _ _ _ scene flags E1 E2).
  assert (Hflags : _render_flags (self s2) = _render_flags (self s)).
  { apply settings_flags.
    pose proof (keeps_settings_render_resize s) as K1.
    pose proof (keeps_settings_render_sync s1) as K2.
    rewrite E1 in K1. rewrite E2 in K2. cbn in K1, K2. congruence. }
  apply bind_raise. rewrite (translate_flags_anywhere s s2 flags Hflags).
  f_equal. unfold translate_flags, translate_mode.
  assert (Hmiss : render_flag "flip_wireframe" s =
                    (Raise (KeyError "flip_wireframe"), s)).
  { unfold render_flag, render_flags.
    rewrite (bind_ok _ _ _ _ _ (getattr_bound _ _ _ Hd)). now rewrite Hkey. }
  now rewrite (bind_raise _ _ _ _ _ (bind_raise _ _ _ _ _ Hmiss)).
Qed.

(** X10.  When flip_wireframe is true, the entries all_wireframe and
    all_solid are never read: the mapping may lack them, and the mode bit
    is [FLIP_WIREFRAME]. *)
Theorem flip_wireframe_needs_no_other_mode (s : State) (d : gmap string PyVal)
    (flags : Z) :
  _render_flags (self s) = Some d ->
  (forall key, In key independent_keys -> is_Some (d !! key)) ->
  flag_is d "flip_wireframe" true ->
  translate_flags flags s =
    (Ok (Z.lor flags (Z.lor FLIP_WIREFRAME (independent_bits d))), s).
Proof.
  intros Hd Hkeys (b & Eb & Tb).
  apply translate_flags_after_mode; auto. unfold translate_mode.
  rewrite (bind_ok _ _ _ _ _ (render_flag_bound _ _ _ _ Hd Eb)).
  now rewrite Tb.
Qed.

(** X11.  With the default flag mapping, which is the mapping of an object
    constructed without [render_flags] and without keyword arguments off
    macOS, the flag translation adds nothing: [render] hands down the
    caller's flags as they are. *)
Theorem default_flags_add_nothing :
  (forall s flags,
     _render_flags (self s) = Some default_render_flags ->
     translate_flags flags s = (Ok flags, s)) /\
  (forall s0 s vw vh ps,
     __init__ vw vh ps None [] s0 = (Ok tt, s) ->
     sys_platform (world s0) <> "darwin" ->
     _render_flags (self s) = Some default_render_flags).
Proof.
  split.
  - intros s flags Hd.
    assert (Hmode : translate_mode flags s = (Ok (Z.lor flags 0), s)).
    { unfold translate_mode.
      rewrite (bind_ok _ _ _ _ _ (render_flag_bound s _ "flip_wireframe" _ Hd eq_refl)).
      cbn [py_truthy].
      rewrite (bind_ok _ _ _ _ _ (render_flag_bound s _ "all_wireframe" _ Hd eq_refl)).
      cbn [py_truthy].
      rewrite (bind_ok _ _ _ _ _ (render_flag_bound s _ "all_solid" _ Hd eq_refl)).
      cbn [py_truthy]. unfold ret. now rewrite Z.lor_0_r. }
    rewrite (translate_flags_after_mode s _ flags 0 Hd); [|
      intros key Hkey; apply default_render_flags_keys, in_or_app; right;
      apply in_or_app; now left | exact Hmode].
    do 2 f_equal. cbn. now rewrite Z.lor_0_r.
  - intros s0 s vw vh ps E Hplat. apply construction_flags in E.
    rewrite E. apply String.eqb_neq in Hplat. now rewrite Hplat.
Qed.

(** X12.  Whatever the flag mapping holds, the flag translation only adds
    bits: when it returns, every bit of the caller's [flags] is set in the
    result. *)
Theorem translate_flags_keeps_bits (s s' : State) (flags flags' : Z) :
  translate_flags flags s = (Ok flags', s') ->
  Z.lor flags flags' = flags'.
Proof.
  unfold translate_flags, translate_mode, render_flag, render_flags,
    getattr, bind, ret, raise.
  destruct (_render_flags (self s)) as [d|]; [|discriminate].
  repeat match goal with
    | |- context [match ?x with _ => _ end] =>
        lazymatch x with
        | context [match _ with _ => _ end] => fail
        | _ => destruct x eqn:?; try discriminate
        end
    end;
    intros [= <- _]; rewrite ?Z.lor_assoc, ?Z.lor_diag; reflexivity.
Qed.

(** ** Platform and renderer live together *)

Lemma selects_or_not (env : gmap string string) :
  (exists b, selects env b) \/ (forall b, ~ selects env b).
Proof.
  destruct (env !! "PYOPENGL_PLATFORM") as [name|] eqn:E.
  - destruct (String.eqb_spec name "egl") as [->|N1].
    + destruct (int_of_str (default "0" (env !! "EGL_DEVICE_ID"))) as [i|] eqn:Ei.
      * left. eexists. now apply selects_egl with (i := i).
      * right. intros b Hb. inversion Hb; congruence.
    + destruct (String.eqb_spec name "osmesa") as [->|N2].
      * left. eexists. now apply selects_osmesa.
      * right. intros b Hb. inversion Hb; congruence.
  - left. eexists. now apply selects_pyglet.
Qed.

Lemma _create_refuses s :
  (forall b, ~ selects (environ (world s)) b) ->
  _create s = (Raise ValueError, s).
Proof.
  intros Hno.
  destruct (environ (world s) !! "PYOPENGL_PLATFORM") as [name|] eqn:E.
  - destruct (String.eqb_spec name "egl") as [->|N1].
    + destruct (int_of_str (default "0" (environ (world s) !! "EGL_DEVICE_ID")))
        as [i|] eqn:Ei.
      * exfalso. eapply Hno. now apply selects_egl with (i := i).
      * py_unfold. cbn. rewrite E. cbn. now rewrite Ei.
    + destruct (String.eqb_spec name "osmesa") as [->|N2].
      * exfalso. eapply Hno. now apply selects_osmesa.
      * now apply _create_unsupported with name.
  - exfalso. eapply Hno. now apply selects_pyglet.
Qed.

(** When the environment selects nothing, a [render] that has to start
    over ends after [delete]. *)
Lemma render_resize_refused s p r w h :
  never_raises ->
  _platform (self s) = Ref p ->
  _renderer (self s) = Ref r ->
  _viewport_width (self s) = Some w ->
  _viewport_height (self s) = Some h ->
  viewport_changed p w h = true ->
  supports_framebuffers (p_backend p) = false ->
  (forall b, ~ selects (environ (world s)) b) ->
  render_resize s =
    (Raise ValueError,
     deleted r p (with_world (log_call (CMakeCurrent (p_id p))) s)).
Proof.
  intros Q Hp Hr Hw Hh Hc Hfb Hno.
  unfold render_resize.
  rewrite (bind_ok _ _ _ _ _ (deref_ref _ _ _ Hp)).
  rewrite (bind_ok _ _ _ _ _ (call_quiet _ _ Q)).
  set (s1 := with_world (log_call (CMakeCurrent (p_id p))) s).
  assert (Hp1 : _platform (self s1) = Ref p) by exact Hp.
  assert (Hr1 : _renderer (self s1) = Ref r) by exact Hr.
  assert (Hw1 : _viewport_width (self s1) = Some w) by exact Hw.
  assert (Hh1 : _viewport_height (self s1) = Some h) by exact Hh.
  rewrite (bind_ok _ _ _ _ _ (deref_ref _ _ _ Hp1)).
  unfold viewport_height at 1.
  rewrite (bind_ok _ _ _ _ _ (getattr_bound _ _ _ Hh1)).
  assert (Hchanged :
    (if py_ne (p_viewport_height p) h then ret true
     else p0 <- deref _platform ;; w0 <- viewport_width ;;
          ret (py_ne (p_viewport_width p0) w0)) s1 = (Ok true, s1)).
  { unfold viewport_changed in Hc.
    destruct (py_ne (p_viewport_height p) h); [reflexivity|].
    rewrite (bind_ok _ _ _ _ _ (deref_ref _ _ _ Hp1)).
    unfold viewport_width.
    rewrite (bind_ok _ _ _ _ _ (getattr_bound _ _ _ Hw1)).
    cbn in Hc. unfold ret. now rewrite Hc. }
  rewrite (bind_ok _ _ _ _ _ Hchanged).
  rewrite (bind_ok _ _ _ _ _ (deref_ref _ _ _ Hp1)).
  rewrite Hfb. cbn [negb].
  rewrite (bind_ok _ _ _ _ _ (delete_returns _ _ _ Q Hr1 Hp1)).
  now apply _create_refuses.
Qed.

Lemma paired_same s s' :
  _platform (self s') = _platform (self s) ->
  _renderer (self s') = _renderer (self s) ->
  paired s -> paired s'.
Proof. unfold paired. intros -> ->. tauto. Qed.

Lemma render_keeps_paired s scene flags :
  never_raises ->
  invariant s ->
  paired s ->
  paired (render scene flags s).2.
Proof.
  intros Q [((zw & Hw) & (zh & Hh) & (x & Hps)) _] [(p & r & Hp & Hr)|[Hp Hr]].
  - destruct (selects_or_not (environ (world s))) as [[b Hsel]|Hno].
    + destruct (render_settles s p r _ _ _ b Q Hp Hr Hw Hh Hps Hsel)
        as (s1 & s2 & p2 & r2 & E1 & E2 & Hp2 & Hr2 & _).
      rewrite (render_after_settling _ _ _ scene flags E1 E2).
      destruct (render_tail_frame s2 scene flags) as [Es _].
      left. exists p2, r2. now rewrite Es.
    + destruct (viewport_changed p (VInt zw) (VInt zh)) eqn:Hc;
        [destruct (supports_framebuffers (p_backend p)) eqn:Hfb|].
      * pose proof (render_resize_keeps s p _ _ Q Hp Hw Hh (or_intror Hfb)) as E1.
        pose proof (render_sync_returns
          (with_world (log_call (CMakeCurrent (p_id p))) s)
          p r _ _ _ Q Hp Hr Hw Hh Hps) as E2.
        rewrite (render_after_settling _ _ _ scene flags E1 E2).
        match type of E2 with _ = (_, ?x) =>
          destruct (render_tail_frame x scene flags) as [Es _]
        end.
        left. do 2 eexists. rewrite Es. cbn. split; [exact Hp | reflexivity].
      * unfold render.
        rewrite (bind_raise _ _ _ _ _
          (render_resize_refused s p r _ _ Q Hp Hr Hw Hh Hc Hfb Hno)).
        right. now cbn.
      * pose proof (render_resize_keeps s p _ _ Q Hp Hw Hh (or_introl Hc)) as E1.
        pose proof (render_sync_returns
          (with_world (log_call (CMakeCurrent (p_id p))) s)
          p r _ _ _ Q Hp Hr Hw Hh Hps) as E2.
        rewrite (render_after_settling _ _ _ scene flags E1 E2).
        match type of E2 with _ = (_, ?x) =>
          destruct (render_tail_frame x scene flags) as [Es _]
        end.
        left. do 2 eexists. rewrite Es. cbn. split; [exact Hp | reflexivity].
  - unfold render, render_resize.
    rewrite (bind_raise _ _ _ _ _ (bind_raise _ _ _ _ _
      (deref_not_ref _platform s ltac:(intros p; rewrite Hp; discriminate)))).
    right. now split.
Qed.

Lemma setters_keep_references a s :
  match a with ARender _ _ | ADelete => False | _ => True end ->
  _platform (self (perform a s).2) = _platform (self s) /\
  _renderer (self (perform a s).2) = _renderer (self s).
Proof.
  destruct a; try contradiction; intros _; destruct s as [w o]; cbn;
    py_unfold; cbn;
    repeat match goal with
      | |- context [match ?x with _ => _ end] => destruct x; cbn
      end;
    now split.
Qed.

Lemma construction_paired s0 vw vh ps given kwargs s :
  never_raises ->
  __init__ vw vh ps given kwargs s0 = (Ok tt, s) ->
  paired s.
Proof.
  intros Q E. apply construction_inv in E as (zw & zh & x & _ & _ & _ & E).
  destruct (selects_or_not (environ (world s0))) as [[b Hsel]|Hno].
  - match type of E with _create ?st = _ =>
      rewrite (_create_returns st b (VInt zw) (VInt zh) Q Hsel eq_refl eq_refl) in E
    end.
    injection E as <-. left. now do 2 eexists.
  - rewrite _create_refuses in E by exact Hno. discriminate.
Qed.

(** X13.  With a library whose calls return, in every state of an object
    that was constructed and then used, the platform and the renderer are
    both alive or both [None]: a live context never lacks its renderer. *)
Theorem platform_and_renderer_paired (s : State) :
  never_raises ->
  reachable s ->
  paired s.
Proof.
  intros Q R. induction R as [w vw vh ps flags kwargs s E | s a R IH].
  - eapply construction_paired; eauto.
  - pose proof (reachable_invariant s R) as I.
    destruct a as [v|v|v|d|scene fl| |env].
    + eapply paired_same; [apply setters_keep_references.. | exact IH]; exact Logic.I.
    + eapply paired_same; [apply setters_keep_references.. | exact IH]; exact Logic.I.
    + eapply paired_same; [apply setters_keep_references.. | exact IH]; exact Logic.I.
    + eapply paired_same; [apply setters_keep_references.. | exact IH]; exact Logic.I.
    + cbn [perform].
      assert (Same : (bind (render scene fl) (fun _ => ret tt) s).2 =
                     (render scene fl s).2).
      { unfold bind. now destruct (render scene fl s) as [[?|?] ?]. }
      rewrite Same. now apply render_keeps_paired.
    + cbn [perform]. destruct IH as [(p & r & Hp & Hr)|[Hp Hr]].
      * rewrite (delete_returns s r p Q Hr Hp). right. now cbn.
      * rewrite delete_without_renderer; [now right|].
        intros r. rewrite Hr. discriminate.
    + eapply paired_same; [apply setters_keep_references.. | exact IH]; exact Logic.I.
Qed.

Lemma settings_bound s s' :
  settings s' = settings s ->
  _viewport_width (self s') = _viewport_width (self s) /\
  _viewport_height (self s') = _viewport_height (self s) /\
  _point_size (self s') = _point_size (self s).
Proof. unfold settings. now intros [=]. Qed.

(** X14.  On an object in use with a live platform and renderer, a
    library whose calls return and an environment that selects a backend,
    a [render] that follows a [render] never starts over: whether or not
    the first one replaced the backend, the second one keeps the platform
    and the renderer it finds, and logs only two [make_current] calls and
    render calls. *)
Theorem second_render_keeps_backend (s : State) (p : Platform) (r : Renderer)
    (b : Backend) (scene scene' : Scene) (flags flags' : Z) :
  never_raises ->
  reachable s ->
  _platform (self s) = Ref p ->
  _renderer (self s) = Ref r ->
  selects (environ (world s)) b ->
  let s1 := (render scene flags s).2 in
  let s2 := (render scene' flags' s1).2 in
  exists p1 r1 r2,
    _platform (self s1) = Ref p1 /\
    _renderer (self s1) = Ref r1 /\
    _platform (self s2) = Ref p1 /\
    _renderer (self s2) = Ref r2 /\
    r_id r2 = r_id r1 /\
    exists calls,
      trace (world s2) =
        trace (world s1) ++
        [CMakeCurrent (p_id p1); CMakeCurrent (p_id p1)] ++ calls /\
      Forall is_render_call calls.
Proof.
  intros Q R Hp Hr Hsel s1 s2.
  destruct (reachable_invariant s R) as [((zw & Hw) & (zh & Hh) & (x & Hps)) _].
  destruct (render_settles s p r _ _ _ b Q Hp Hr Hw Hh Hps Hsel)
    as (t1 & t2 & p1 & r1 & E1 & E2 & Hp1 & Hr1 & Hsize).
  assert (Es1 : self s1 = self t2).
  { subst s1. rewrite (render_after_settling _ _ _ scene flags E1 E2).
    apply render_tail_frame. }
  destruct (settings_bound s s1 (keeps_settings_render scene flags s))
    as (Hw1 & Hh1 & Hps1).
  rewrite Hw in Hw1. rewrite Hh in Hh1. rewrite Hps in Hps1.
  assert (Hp1' : _platform (self s1) = Ref p1) by now rewrite Es1.
  assert (Hr1' : _renderer (self s1) = Ref r1) by now rewrite Es1.
  assert (Keep : viewport_changed p1 (VInt zw) (VInt zh) = false \/
                 supports_framebuffers (p_backend p1) = true).
  { destruct (viewport_changed p (VInt zw) (VInt zh)) eqn:Hc;
      [destruct (supports_framebuffers (p_backend p)) eqn:Hfb|];
      cbn [andb negb] in Hsize.
    - destruct Hsize as [-> _]. now right.
    - destruct Hsize as [Ew Eh]. left. unfold viewport_changed, py_ne.
      rewrite Ew, Eh. cbn. now rewrite !Z.eqb_refl.
    - destruct Hsize as [-> _]. now left. }
  pose proof (render_resize_keeps s1 p1 _ _ Q Hp1' Hw1 Hh1 Keep) as F1.
  pose proof (render_sync_returns
    (with_world (log_call (CMakeCurrent (p_id p1))) s1)
    p1 r1 _ _ _ Q Hp1' Hr1' Hw1 Hh1 Hps1) as F2.
  match type of F2 with _ = (_, ?st) => set (u2 := st) in * end.
  destruct (render_tail_frame u2 scene' flags') as [Es (calls & Et & Hcalls)].
  exists p1, r1, (synced (VInt zw) (VInt zh) (VFloat x) r1).
  subst s2. rewrite (render_after_settling _ _ _ scene' flags' F1 F2).
  rewrite Es, Et. repeat split; try assumption.
  exists calls. split; [|exact Hcalls].
  cbn. rewrite <- !app_assoc. reflexivity.
Qed.

(** ** The renderer of the driver script *)

(** X26.  The renderer the script constructs (line 159) adds to the flags
    of a [render] call the two shadow bits when the script's
    [render_shadow] is true and the process is not on macOS, and nothing
    otherwise: the other entries of the script's mapping are the
    defaults. *)
Theorem script_renderer_adds_only_shadows (s0 s : State)
    (img_res render_shadow : PyVal) (flags : Z) :
  __init__ img_res img_res (VFloat float_one)
    (Some (Driver.render_flags render_shadow)) [] s0 = (Ok tt, s) ->
  translate_flags flags s =
    (Ok (Z.lor flags
           (if py_truthy render_shadow &&
               negb (String.eqb (sys_platform (world s0)) "darwin")
            then Z.lor SHADOWS_DIRECTIONAL SHADOWS_SPOT else 0)), s).
Proof.
  intros E. apply construction_flags in E.
  set (darwin := String.eqb (sys_platform (world s0)) "darwin") in *.
  set (d := initial_flags darwin (Some (Driver.render_flags render_shadow)) [])
    in *.
  assert (F1 : d !! "flip_wireframe" = Some (VBool false))
    by (subst d; destruct darwin; reflexivity).
  assert (F2 : d !! "all_wireframe" = Some (VBool false))
    by (subst d; destruct darwin; reflexivity).
  assert (F3 : d !! "all_solid" = Some (VBool false))
    by (subst d; destruct darwin; reflexivity).
  assert (F4 : d !! "shadows" =
                 Some (if darwin then VBool false else render_shadow))
    by (subst d; destruct darwin; reflexivity).
  assert (F5 : d !! "vertex_normals" = Some (VBool false))
    by (subst d; destruct darwin; reflexivity).
  assert (F6 : d !! "face_normals" = Some (VBool false))
    by (subst d; destruct darwin; reflexivity).
  assert (F7 : d !! "cull_faces" = Some (VBool true))
    by (subst d; destruct darwin; reflexivity).
  clearbody d.
  assert (Hmode : translate_mode flags s = (Ok (Z.lor flags 0), s)).
  { unfold translate_mode.
    rewrite (bind_ok _ _ _ _ _ (render_flag_bound s _ _ _ E F1)).
    cbn [py_truthy].
    rewrite (bind_ok _ _ _ _ _ (render_flag_bound s _ _ _ E F2)).
    cbn [py_truthy].
    rewrite (bind_ok _ _ _ _ _ (render_flag_bound s _ _ _ E F3)).
    cbn [py_truthy]. unfold ret. now rewrite Z.lor_0_r. }
  rewrite (translate_flags_after_mode s d flags 0 E); [| | exact Hmode].
  - do 2 f_equal. unfold independent_bits. rewrite F4, F5, F6, F7.
    cbn [py_truthy Bool.eqb]. rewrite !Z.lor_0_r, Z.lor_0_l.
    destruct darwin; cbn [py_truthy negb andb].
    + now rewrite andb_false_r.
    + rewrite andb_true_r. now destruct (py_truthy render_shadow).
  - intros key Hkey. cbn in Hkey.
    destruct Hkey as [<- | [<- | [<- | [<- | []]]]];
      rewrite ?F4, ?F5, ?F6, ?F7; now eexists.
Qed.

End OffscreenRendererFacts.

(** * Properties of the driver script *)

Module DriverFacts.
Import Driver.
Local Open Scope R_scope.

(** ** Lists read through their indices *)

Lemma map_nth_seq {A} (l : list A) (d : A) :
  map (fun i => nth i l d) (seq 0 (length l)) = l.
Proof.
  induction l as [|a l IH]; [reflexivity|].
  cbn [length seq map nth]. f_equal.
  rewrite <- seq_shift, map_map. exact IH.
Qed.

Lemma map_rows_by_index {A B} (g : list A -> B) (l : list (list A)) :
  map (fun i => g (nth i l [])) (seq 0 (length l)) = map g l.
Proof.
  rewrite <- (map_map (fun i => nth i l []) g). now rewrite map_nth_seq.
Qed.

Lemma map_constant {A B C} (c : C) (l : list A) (l' : list B) :
  length l = length l' -> map (fun _ => c) l = map (fun _ => c) l'.
Proof.
  revert l'. induction l as [|a l IH]; intros [|b l'] E; try discriminate.
  - reflexivity.
  - cbn. f_equal. apply IH. now injection E.
Qed.

Lemma pin_in_range len i : (i < len)%nat -> pin len i = i.
Proof.
  intros Hi. unfold pin. destruct (Nat.eqb_spec len 1); [lia | reflexivity].
Qed.

Lemma broadcast_axis_one m : broadcast_axis m 1 = Some m.
Proof.
  unfold broadcast_axis.
  destruct (Nat.eqb_spec m 1) as [->|]; [reflexivity|].
  reflexivity.
Qed.

Lemma broadcast_axis_same m : broadcast_axis m m = Some m.
Proof. unfold broadcast_axis. now rewrite Nat.eqb_refl. Qed.

(** ** The vertex colours *)

Lemma item_ones_like a i j :
  well_shaped a -> (i < shape0 a)%nat -> (j < shape1 a)%nat ->
  item (ones_like a) i j = 1.
Proof.
  intros W Hi Hj. unfold item, ones_like, shape0 in *. cbn [rows].
  assert (Hrow : nth i (map (map (fun _ : R => 1)) (rows a)) [] =
                 map (fun _ : R => 1) (nth i (rows a) []))
    by apply (map_nth (map (fun _ : R => 1)) (rows a) [] i).
  assert (Hlen : length (nth i (rows a) []) = shape1 a).
  { unfold well_shaped in W. rewrite List.Forall_forall in W.
    apply W, nth_In, Hi. }
  rewrite Hrow, (nth_indep _ 0 1) by (rewrite length_map; lia).
  exact (map_nth (fun _ : R => 1) (nth i (rows a) []) 0 j).
Qed.

Lemma multiply_ones_by_row a color c :
  well_shaped a ->
  rows color = [c] ->
  length c = shape1 a ->
  shape1 color = shape1 a ->
  multiply (ones_like a) color =
    Ok {| shape1 := shape1 a; rows := map (fun _ => c) (rows a) |}.
Proof.
  intros W Hc Hlen Hcols. unfold multiply.
  replace (shape0 (ones_like a)) with (shape0 a)
    by (unfold shape0, ones_like; cbn; now rewrite length_map).
  replace (shape0 color) with 1%nat by (unfold shape0; now rewrite Hc).
  replace (shape1 (ones_like a)) with (shape1 a) by reflexivity.
  rewrite Hcols, broadcast_axis_one, broadcast_axis_same.
  do 2 f_equal.
  rewrite (map_constant c (rows a) (seq 0 (shape0 a)))
    by (unfold shape0; now rewrite length_seq).
  apply map_ext_in. intros i Hi. apply in_seq in Hi.
  etransitivity; [|apply (map_nth_seq c 0)]. rewrite Hlen.
  apply map_ext_in. intros j Hj. apply in_seq in Hj.
  rewrite (pin_in_range (shape0 a)), (pin_in_range (shape1 a)) by lia.
  rewrite item_ones_like by (auto; lia).
  unfold item, pin. rewrite Hc. cbn. apply Rmult_1_l.
Qed.

(** C5, as the code has it.  For a rectangular vertex array: a colour
    array of one row that has as many columns as the vertex array is
    repeated once per vertex; a colour array whose number of rows is neither
    one nor the number of vertices fails the assertion; a colour array with
    one row per vertex, not a single row of another width, becomes the
    vertex colours as it is.  The vertices are never touched. *)
Theorem assign_colors_by_shape (mesh : Mesh) (color : ndarray) :
  well_shaped (v mesh) ->
  well_shaped color ->
  (forall c,
     rows color = [c] ->
     shape1 color = shape1 (v mesh) ->
     assign_colors mesh (Some color) =
       Ok {| v := v mesh; f := f mesh;
             vc := Some {| shape1 := shape1 (v mesh);
                           rows := map (fun _ => c) (rows (v mesh)) |} |}) /\
  (shape0 color <> 1%nat ->
   shape0 color <> shape0 (v mesh) ->
   assign_colors mesh (Some color) = Raise AssertionError) /\
  (shape0 color = shape0 (v mesh) ->
   shape0 color <> 1%nat \/ shape1 color = shape1 (v mesh) ->
   assign_colors mesh (Some color) =
     Ok {| v := v mesh; f := f mesh; vc := Some color |}).
Proof.
  intros W Wc.
  assert (Hv : forall m, v (match vc m with
                            | None => with_vc (scale (ones_like (v m)) (8 / 10)) m
                            | Some _ => m
                            end) = v m) by (intros m; now destruct (vc m)).
  assert (Hf : forall m, f (match vc m with
                            | None => with_vc (scale (ones_like (v m)) (8 / 10)) m
                            | Some _ => m
                            end) = f m) by (intros m; now destruct (vc m)).
  assert (One : forall c,
     rows color = [c] ->
     shape1 color = shape1 (v mesh) ->
     assign_colors mesh (Some color) =
       Ok {| v := v mesh; f := f mesh;
             vc := Some {| shape1 := shape1 (v mesh);
                           rows := map (fun _ => c) (rows (v mesh)) |} |}).
  { intros c Hc Hcols. unfold assign_colors.
    replace (shape0 color) with 1%nat by (unfold shape0; now rewrite Hc).
    cbn [Nat.eqb]. rewrite Hv.
    rewrite (multiply_ones_by_row (v mesh) color c); auto.
    - unfold with_vc. now rewrite Hv, Hf.
    - unfold well_shaped in Wc. rewrite Hc in Wc.
      apply List.Forall_inv in Wc. now rewrite Wc. }
  repeat split.
  - exact One.
  - intros N1 Nn. unfold assign_colors. rewrite Hv.
    apply Nat.eqb_neq in N1. rewrite N1.
    destruct (Nat.eqb_spec (shape0 (v mesh)) (shape0 color)); [congruence|reflexivity].
  - intros En Hor.
    destruct (Nat.eq_dec (shape0 color) 1%nat) as [E1|N1].
    + destruct Hor as [N|Hcols]; [contradiction|].
      unfold shape0 in E1, En.
      destruct color as [m [|c [|]]]; try discriminate. cbn in *.
      rewrite (One c eq_refl Hcols). do 3 f_equal.
      destruct (v mesh) as [mv [|row [|]]]; try discriminate. cbn in *.
      now subst.
    + unfold assign_colors. rewrite Hv.
      apply Nat.eqb_neq in N1. rewrite N1, <- En, Nat.eqb_refl.
      unfold with_vc. now rewrite Hv, Hf.
Qed.

(** ** The full turn *)

(** Two lists of reals are equal entry by entry. *)
Ltac entrywise :=
  repeat match goal with
    | |- @eq (list _) (_ :: _) (_ :: _) => apply (f_equal2 (@cons _))
    | |- @eq (list _) [] [] => reflexivity
    | |- @eq R _ _ => ring
    end.





(** [matmul] row by row of its left operand. *)
Lemma matmul_rows a b :
  shape1 a = shape0 b ->
  matmul a b =
    Ok {| shape1 := shape1 b;
          rows := map (fun row =>
                    map (fun j =>
                      sum (map (fun k => nth k row 0 * item b k j)
                             (seq 0 (shape1 a))))
                      (seq 0 (shape1 b)))
                    (rows a) |}.
Proof.
  intros E. unfold matmul. rewrite E, Nat.eqb_refl. do 2 f_equal.
  unfold shape0 at 1. unfold item at 1.
  apply (map_rows_by_index (fun row =>
    map (fun j => sum (map (fun k => nth k row 0 * item b k j)
                         (seq 0 (shape0 b))))
      (seq 0 (shape1 b)))).
Qed.









(** ** More on the vertex colours *)

Lemma colorless_v m :
  v (match vc m with
     | None => with_vc (scale (ones_like (v m)) (8 / 10)) m
     | Some _ => m
     end) = v m.
Proof. now destruct (vc m). Qed.

Lemma colorless_f m :
  f (match vc m with
     | None => with_vc (scale (ones_like (v m)) (8 / 10)) m
     | Some _ => m
     end) = f m.
Proof. now destruct (vc m). Qed.

(** X15.  Whenever [main] accepts a supplied colour array, the mesh ends
    with exactly one colour row per vertex, and its vertices and faces are
    the ones it had. *)
Theorem accepted_colors_cover_the_vertices (mesh mesh' : Mesh) (color : ndarray) :
  assign_colors mesh (Some color) = Ok mesh' ->
  v mesh' = v mesh /\
  f mesh' = f mesh /\
  exists colors, vc mesh' = Some colors /\ shape0 colors = shape0 (v mesh).
Proof.
  unfold assign_colors.
  destruct (Nat.eqb_spec (shape0 color) 1) as [One|Many].
  - rewrite colorless_v. unfold multiply.
    replace (shape0 (ones_like (v mesh))) with (shape0 (v mesh))
      by (unfold shape0, ones_like; cbn; now rewrite length_map).
    rewrite One, broadcast_axis_one.
    destruct (broadcast_axis _ _) as [m|]; [|discriminate].
    intros [= <-]. cbn. rewrite colorless_v, colorless_f.
    repeat split. eexists. split; [reflexivity|].
    unfold shape0. cbn. now rewrite length_map, length_seq.
  - rewrite colorless_v.
    destruct (Nat.eqb_spec (shape0 (v mesh)) (shape0 color)) as [Same|];
      [|discriminate].
    intros [= <-]. cbn. rewrite colorless_v, colorless_f.
    repeat split. eexists. split; [reflexivity|]. now symmetry.
Qed.

(** X16.  Without a supplied colour, a mesh that came without colours gets
    the grey 0.8 in every entry of an array shaped like its vertices, and
    a mesh that came with colours keeps them. *)
Theorem unsupplied_colors_default_to_grey (mesh : Mesh) :
  (vc mesh = None ->
   assign_colors mesh None =
     Ok {| v := v mesh; f := f mesh;
           vc := Some {| shape1 := shape1 (v mesh);
                         rows := map (map (fun _ => 8 / 10)) (rows (v mesh)) |} |}) /\
  (forall colors,
     vc mesh = Some colors -> assign_colors mesh None = Ok mesh).
Proof.
  split.
  - intros E. unfold assign_colors. rewrite E. unfold with_vc, scale, ones_like.
    cbn. do 4 f_equal. rewrite map_map. apply map_ext. intros row.
    rewrite map_map. apply map_ext. intros _. apply Rmult_1_l.
  - intros colors E. unfold assign_colors. now rewrite E.
Qed.

(** X17.  A supplied colour array always wins over the colours of the
    file: the outcome of the colour assignment does not depend on the
    colours the mesh came with. *)
Theorem supplied_colors_override_file_colors (mesh : Mesh) (color : ndarray)
    (file_colors : option ndarray) :
  assign_colors {| v := v mesh; f := f mesh; vc := file_colors |} (Some color) =
  assign_colors mesh (Some color).
Proof.
  unfold assign_colors. rewrite !colorless_v. cbn [v].
  destruct (shape0 color =? 1)%nat.
  - destruct (multiply (ones_like (v mesh)) color); [|reflexivity].
    unfold with_vc. now rewrite !colorless_v, !colorless_f.
  - destruct (shape0 (v mesh) =? shape0 color)%nat; [|reflexivity].
    unfold with_vc. now rewrite !colorless_v, !colorless_f.
Qed.

(** X18.  A colour array of one row is rejected with numpy's [ValueError]
    exactly when its width cannot be broadcast against the vertices: the
    two widths differ and neither is one. *)
Theorem one_row_colors_need_a_matching_width (mesh : Mesh) (color : ndarray) :
  shape0 color = 1%nat ->
  (assign_colors mesh (Some color) = Raise ValueError <->
   shape1 color <> shape1 (v mesh) /\ shape1 color <> 1%nat /\
   shape1 (v mesh) <> 1%nat).
Proof.
  intros One. unfold assign_colors. rewrite One, colorless_v. cbn [Nat.eqb].
  unfold multiply.
  replace (shape0 (ones_like (v mesh))) with (shape0 (v mesh))
    by (unfold shape0, ones_like; cbn; now rewrite length_map).
  rewrite One, broadcast_axis_one. cbn [shape1 ones_like].
  unfold broadcast_axis.
  destruct (Nat.eqb_spec (shape1 (v mesh)) (shape1 color)) as [E|N];
    [split; [discriminate | intros [N _]; now symmetry in E]|].
  destruct (Nat.eqb_spec (shape1 (v mesh)) 1) as [E1|N1];
    [split; [discriminate | tauto]|].
  destruct (Nat.eqb_spec (shape1 color) 1) as [E2|N2];
    [split; [discriminate | tauto]|].
  split; [|reflexivity]. intros _. repeat split; auto.
Qed.

(** ** More on the turntable *)

(** X19.  The loop over the views at its edges: no view at all is a
    division by zero, a negative number of views leaves the vertices as
    they are, and with at least one view vertices that do not have three
    columns are rejected by [matmul]. *)
Theorem turntable_edge_cases (view_num : Z) (vertices : ndarray) :
  (view_num = 0%Z -> turntable view_num vertices = Raise ZeroDivisionError) /\
  ((view_num < 0)%Z -> turntable view_num vertices = Ok vertices) /\
  ((0 < view_num)%Z -> shape1 vertices <> 3%nat ->
   turntable view_num vertices = Raise ValueError).
Proof.
  unfold turntable. repeat split.
  - now intros ->.
  - intros Hneg. destruct (Z.eqb_spec view_num 0) as [E0|N0]; [lia|].
    now destruct view_num.
  - intros Hpos Hcols. destruct (Z.eqb_spec view_num 0) as [E0|N0]; [lia|].
    destruct (Z.to_nat view_num) as [|passes] eqn:En; [lia|].
    cbn [rotate_times]. unfold matmul.
    replace (shape0 (transpose (top_left3 (rotationy (360 / IZR view_num)))))
      with 3%nat by reflexivity.
    apply Nat.eqb_neq in Hcols. now rewrite Hcols.
Qed.





(** ** The rotation and translation matrices *)







Lemma location_matmul a b c x y z :
  matmul (location a b c) (location x y z) =
    Ok (location (a + x) (b + y) (c + z)).
Proof.
  rewrite matmul_rows by reflexivity.
  unfold location. cbn. unfold item, sum. cbn. do 2 f_equal. entrywise.
Qed.

(** X25.  [location] composes by adding offsets, in either order, and is
    the identity at the origin. *)
Theorem location_composes (a b c x y z : R) :
  matmul (location a b c) (location x y z) =
    Ok (location (a + x) (b + y) (c + z)) /\
  matmul (location a b c) (location x y z) =
    matmul (location x y z) (location a b c) /\
  location 0 0 0 = eye 4.
Proof.
  split; [apply location_matmul|]. split.
  - rewrite !location_matmul. do 2 f_equal; ring.
  - reflexivity.
Qed.

End DriverFacts.

(** * The statements at concrete inputs *)

(** ** Objects and their states *)

Lemma returned {A} (x : result A * State (H := rational_floats)) (a : A) :
  x.1 = Ok a -> x = (Ok a, x.2).
Proof. destruct x as [r s]. cbn. now intros ->. Qed.

Lemma live_is_constructed :
  __init__ (L := quiet_library) (VInt 640) (VInt 480) (VFloat float_one) None []
    (before_init []) = (Ok tt, live).
Proof. unfold live, constructed. apply returned. vm_compute. reflexivity. Qed.

Lemma live_reachable : reachable (L := quiet_library) live.
Proof. exact (reachable_init _ _ _ _ _ _ _ live_is_constructed). Defined.

Lemma widened_reachable : reachable (L := quiet_library) widened.
Proof. exact (reachable_step live (ASetViewportWidth (VInt 800)) live_reachable). Defined.

Lemma quiet_library_never_raises : never_raises (L := quiet_library).
Proof. intros log c. reflexivity. Defined.

Lemma live_platform_bound : _platform (self live) = Ref live_platform.
Proof. vm_compute. reflexivity. Qed.

Lemma live_renderer_bound : _renderer (self live) = Ref live_renderer.
Proof. vm_compute. reflexivity. Qed.

(** ** [delete] and the destructor *)

(** C8 on a fresh object. *)
Lemma delete_releases_renderer_then_context_witness :
  let s := live in
  (_renderer (self s) = Ref live_renderer /\
   _platform (self s) = Ref live_platform) /\
  exists s',
    delete (L := quiet_library) s = (Ok tt, s') /\
    trace (world s') = trace (world s) ++ [CRendererDelete 1; CDeleteContext 0] /\
    _renderer (self s') = Null /\
    _platform (self s') = Null.
Proof.
  split; [split; [exact live_renderer_bound | exact live_platform_bound]|].
  exact (delete_releases_renderer_then_context (L := quiet_library)
           live live_renderer live_platform
           live_renderer_bound live_platform_bound eq_refl eq_refl).
Defined.

(** C1 fails on the code: on a fresh object the first [delete()] returns
    and the second one raises [AttributeError]. *)
Lemma delete_twice_raises :
  let s1 := (delete (L := quiet_library) live).2 in
  (delete (L := quiet_library) live).1 = Ok tt /\
  (delete (L := quiet_library) s1).1 = Raise AttributeError.
Proof. split; vm_compute; reflexivity. Qed.

(** The amended C1 on the same object. *)
Lemma second_delete_raises_witness :
  let s1 := (delete (L := quiet_library) live).2 in
  delete (L := quiet_library) live = (Ok tt, s1) /\
  delete (L := quiet_library) s1 = (Raise AttributeError, s1) /\
  __del__ (L := quiet_library) s1 = (Ok tt, s1).
Proof.
  intros s1.
  assert (E : delete (L := quiet_library) live = (Ok tt, s1))
    by (subst s1; apply returned; vm_compute; reflexivity).
  split; [exact E|].
  exact (second_delete_raises (L := quiet_library) live s1 E).
Defined.





(** C9 where the renderer's [delete] fails inside the library: [delete()]
    raises, the destructor does not. *)
Example del_swallows_library_error :
  let s := constructed failing_library [] in
  (delete (L := failing_library) s).1 = Raise (LibraryError 1) /\
  (__del__ (L := failing_library) s).1 = Ok tt.
Proof. split; vm_compute; reflexivity. Qed.

(** C9 on an object whose [__init__] raised before any attribute was
    bound. *)
Example del_on_unbound_object :
  __del__ (L := quiet_library) (before_init []) = (Ok tt, before_init []).
Proof. reflexivity. Qed.

(** ** Flags *)

Lemma example_flags_complete (d : gmap string PyVal) :
  d = flags_all_modes \/ d = flags_wireframe \/ d = flags_solid ->
  forall key, In key ["shadows"; "vertex_normals"; "face_normals"; "cull_faces"] ->
    is_Some (d !! key).
Proof.
  intros Hd key Hkey. cbn in Hkey.
  destruct Hd as [-> | [-> | ->]];
    destruct Hkey as [<- | [<- | [<- | [<- | []]]]]; now eexists.
Qed.

(** C2 with upstream's constants and no incoming bits: the three modes at
    once give [FLIP_WIREFRAME] = 4, wireframe and solid give
    [ALL_WIREFRAME] = 8, solid alone gives [ALL_SOLID] = 16. *)
Lemma translate_flags_priority_witness :
  translate_flags 0 (with_flags flags_all_modes) =
    (Ok 4%Z, with_flags flags_all_modes) /\
  translate_flags 0 (with_flags flags_wireframe) =
    (Ok 8%Z, with_flags flags_wireframe) /\
  translate_flags 0 (with_flags flags_solid) =
    (Ok 16%Z, with_flags flags_solid).
Proof.
  split; [|split].
  - refine (proj1 (translate_flags_priority (with_flags flags_all_modes)
              flags_all_modes 0 eq_refl
              (example_flags_complete _ (or_introl eq_refl))) _ _ _);
      exists (VBool true); split; reflexivity.
  - refine (proj1 (proj2 (translate_flags_priority (with_flags flags_wireframe)
              flags_wireframe 0 eq_refl
              (example_flags_complete _ (or_intror (or_introl eq_refl))))) _ _).
    + exists (VBool false); split; reflexivity.
    + exists (VBool true); split; reflexivity.
  - refine (proj2 (proj2 (translate_flags_priority (with_flags flags_solid)
              flags_solid 0 eq_refl
              (example_flags_complete _ (or_intror (or_intror eq_refl))))) _ _ _).
    + exists (VBool false); split; reflexivity.
    + exists (VBool false); split; reflexivity.
    + exists (VBool true); split; reflexivity.
Defined.

(** ** Construction *)

(** C3 fails on the code: with [PYOPENGL_PLATFORM=egl] and
    [EGL_DEVICE_ID=abc], [int('abc')] raises [ValueError]; no platform is
    constructed and the library is never called. *)
Lemma egl_with_bad_device_id_builds_nothing :
  let s0 := before_init [("PYOPENGL_PLATFORM", "egl"); ("EGL_DEVICE_ID", "abc")] in
  let out := __init__ (L := quiet_library)
               (VInt 640) (VInt 480) (VFloat float_one) None [] s0 in
  environ (world s0) !! "PYOPENGL_PLATFORM" = Some "egl" /\
  out.1 = Raise ValueError /\
  _platform (self out.2) = Null /\
  trace (world out.2) = [].
Proof. repeat split; vm_compute; reflexivity. Qed.

(** The amended C3 in six environments. *)
Lemma create_selects_backend_witness :
  let pyglet := creating [] in
  let egl3 := creating [("PYOPENGL_PLATFORM", "egl"); ("EGL_DEVICE_ID", "3")] in
  let egl0 := creating [("PYOPENGL_PLATFORM", "egl")] in
  let osmesa := creating [("PYOPENGL_PLATFORM", "osmesa")] in
  let egl_abc := creating [("PYOPENGL_PLATFORM", "egl"); ("EGL_DEVICE_ID", "abc")] in
  let glx := creating [("PYOPENGL_PLATFORM", "glx")] in
  _create (L := quiet_library) pyglet =
    (Ok tt, created PygletPlatform (VInt 640) (VInt 480) pyglet) /\
  _create (L := quiet_library) egl3 =
    (Ok tt, created (EGLPlatform {| device_index := 3 |}) (VInt 640) (VInt 480) egl3) /\
  _create (L := quiet_library) egl0 =
    (Ok tt, created (EGLPlatform {| device_index := 0 |}) (VInt 640) (VInt 480) egl0) /\
  _create (L := quiet_library) osmesa =
    (Ok tt, created OSMesaPlatform (VInt 640) (VInt 480) osmesa) /\
  _create (L := quiet_library) egl_abc = (Raise ValueError, egl_abc) /\
  _create (L := quiet_library) glx = (Raise ValueError, glx).
Proof.
  intros pyglet egl3 egl0 osmesa egl_abc glx.
  split; [|split; [|split; [|split; [|split]]]].
  - apply (proj1 (create_selects_backend (L := quiet_library)
      pyglet (VInt 640) (VInt 480) quiet_library_never_raises eq_refl eq_refl)).
    vm_compute. reflexivity.
  - apply (proj1 (proj2 (create_selects_backend (L := quiet_library)
      egl3 (VInt 640) (VInt 480) quiet_library_never_raises eq_refl eq_refl)));
      vm_compute; reflexivity.
  - apply (proj1 (proj2 (proj2 (create_selects_backend (L := quiet_library)
      egl0 (VInt 640) (VInt 480) quiet_library_never_raises eq_refl eq_refl))));
      vm_compute; reflexivity.
  - apply (proj1 (proj2 (proj2 (proj2 (create_selects_backend (L := quiet_library)
      osmesa (VInt 640) (VInt 480) quiet_library_never_raises eq_refl eq_refl))))).
    vm_compute. reflexivity.
  - apply (proj1 (proj2 (proj2 (proj2 (proj2 (create_selects_backend
      (L := quiet_library)
      egl_abc (VInt 640) (VInt 480) quiet_library_never_raises eq_refl eq_refl))))));
      vm_compute; reflexivity.
  - apply (proj2 (proj2 (proj2 (proj2 (proj2 (create_selects_backend
      (L := quiet_library)
      glx (VInt 640) (VInt 480) quiet_library_never_raises eq_refl eq_refl))))) "glx");
      [vm_compute; reflexivity | discriminate | discriminate].
Defined.

(** ** Resizing and results *)

Lemma live_selects_pyglet : selects (environ (world live)) PygletPlatform.
Proof. constructor. vm_compute. reflexivity. Qed.

Lemma widened_selects_pyglet : selects (environ (world widened)) PygletPlatform.
Proof. constructor. vm_compute. reflexivity. Qed.

Lemma widened_platform_bound : _platform (self widened) = Ref live_platform.
Proof. vm_compute. reflexivity. Qed.

Lemma widened_renderer_bound : _renderer (self widened) = Ref live_renderer.
Proof. vm_compute. reflexivity. Qed.

Lemma widened_next_id : next_id (world widened) = 2.
Proof. vm_compute. reflexivity. Qed.

(** C4 on a Pyglet platform, which has no framebuffers.  After
    [r.viewport_width = 800], [render] replaces the platform of identity 0
    by one of identity 2 and gives the new renderer the size 800 by 480;
    without the assignment it keeps the platform and the renderer. *)
Lemma render_restarts_backend_on_resize_witness :
  let after_resize := (render (L := quiet_library) (SceneRef 0) 0 widened).2 in
  let after_plain := (render (L := quiet_library) (SceneRef 0) 0 live).2 in
  (viewport_changed live_platform (VInt 800) (VInt 480) = true /\
   supports_framebuffers (Library := quiet_library) (p_backend live_platform) = false /\
   _platform (self after_resize) =
     Ref {| p_id := 2; p_backend := PygletPlatform;
            p_viewport_width := VInt 800; p_viewport_height := VInt 480 |} /\
   _renderer (self after_resize) =
     Ref {| r_id := 3; r_viewport_width := VInt 800; r_viewport_height := VInt 480;
            r_point_size := Some (VFloat float_one) |}) /\
  (viewport_changed live_platform (VInt 640) (VInt 480) = false /\
   _platform (self after_plain) = Ref live_platform /\
   _renderer (self after_plain) =
     Ref (synced (VInt 640) (VInt 480) (VFloat float_one) live_renderer)).
Proof.
  intros after_resize after_plain. split.
  - assert (Hc : viewport_changed live_platform (VInt 800) (VInt 480) = true)
      by reflexivity.
    assert (Hfb : supports_framebuffers (Library := quiet_library)
                    (p_backend live_platform) = false) by reflexivity.
    split; [exact Hc|]. split; [exact Hfb|].
    assert (Hw : _viewport_width (self widened) = Some (VInt 800))
      by (vm_compute; reflexivity).
    assert (Hh : _viewport_height (self widened) = Some (VInt 480))
      by (vm_compute; reflexivity).
    assert (Hps : _point_size (self widened) = Some (VFloat float_one))
      by (vm_compute; reflexivity).
    destruct (proj1 (render_restarts_backend_on_resize (L := quiet_library)
        widened live_platform live_renderer (VInt 800) (VInt 480)
        (VFloat float_one) PygletPlatform (SceneRef 0) 0
        quiet_library_never_raises widened_reachable
        widened_platform_bound widened_renderer_bound Hw Hh Hps
        widened_selects_pyglet) Hc Hfb) as (_ & Hp & Hr & _).
    rewrite widened_next_id in Hp, Hr.
    split; [exact Hp | exact Hr].
  - assert (Hc : viewport_changed live_platform (VInt 640) (VInt 480) = false)
      by reflexivity.
    split; [exact Hc|].
    assert (Hw : _viewport_width (self live) = Some (VInt 640))
      by (vm_compute; reflexivity).
    assert (Hh : _viewport_height (self live) = Some (VInt 480))
      by (vm_compute; reflexivity).
    assert (Hps : _point_size (self live) = Some (VFloat float_one))
      by (vm_compute; reflexivity).
    destruct (proj2 (render_restarts_backend_on_resize (L := quiet_library)
        live live_platform live_renderer (VInt 640) (VInt 480)
        (VFloat float_one) PygletPlatform (SceneRef 0) 0
        quiet_library_never_raises live_reachable
        live_platform_bound live_renderer_bound Hw Hh Hps
        live_selects_pyglet) (or_introl Hc)) as (Hp & Hr & _).
    split; [exact Hp | exact Hr].
Defined.

(** C7 on a Pyglet platform, with upstream's constants: without incoming
    bits [render] makes the render pass, reads both buffers and returns the
    pair (colour, depth); the depth buffer is the value of the call just
    before the one that gives the colour buffer. *)
Lemma render_returns_buffers_witness :
  (translate_flags 0 live).1 = Ok 0%Z /\
  exists s2 n,
    bind (render_resize (L := quiet_library))
      (fun _ => render_sync (L := quiet_library)) live = (Ok tt, s2) /\
    n = length (trace (world s2)) /\
    render (L := quiet_library) (SceneRef 0) 0 live =
      (Ok (OutPair (LibValue (S (S n))) (LibValue (S n))),
       with_world
         (log_calls [CRendererRender 1 (SceneRef 0) 0;
                     CReadDepthBuf 1; CReadColorBuf 1]) s2).
Proof.
  assert (T : (translate_flags 0 live).1 = Ok 0%Z) by (vm_compute; reflexivity).
  split; [exact T|].
  assert (Hw : _viewport_width (self live) = Some (VInt 640))
    by (vm_compute; reflexivity).
  assert (Hh : _viewport_height (self live) = Some (VInt 480))
    by (vm_compute; reflexivity).
  assert (Hps : _point_size (self live) = Some (VFloat float_one))
    by (vm_compute; reflexivity).
  destruct (render_returns_buffers (L := quiet_library)
      live live_platform live_renderer (VInt 640) (VInt 480) (VFloat float_one)
      PygletPlatform (SceneRef 0) 0 0
      quiet_library_never_raises live_platform_bound live_renderer_bound
      Hw Hh Hps live_selects_pyglet T)
    as (s2 & p2 & r2 & E & Hp2 & Hr2 & Hb & Hrender).
  exists s2, (length (trace (world s2))).
  split; [exact E|]. split; [reflexivity|].
  assert (Hid : r_id r2 = 1).
  { assert (Hs2 : _renderer (self s2) =
        _renderer (self (bind (render_resize (L := quiet_library))
                           (fun _ => render_sync (L := quiet_library)) live).2))
      by now rewrite E.
    rewrite Hr2 in Hs2. vm_compute in Hs2. now injection Hs2 as ->. }
  cbn in Hb. cbn zeta in Hrender. rewrite Hb, Hid in Hrender. exact Hrender.
Defined.

(** C7 on an EGL platform, which has framebuffers: one library call with
    the [OFFSCREEN] bit, whose value is returned. *)
Example render_delegates_with_framebuffers :
  let out := render (L := quiet_library) (SceneRef 0) 0 live_egl in
  _platform (self live_egl) = Ref live_egl_platform /\
  out.1 = Ok (OutValue (LibValue 7)) /\
  trace (world out.2) =
    trace (world live_egl) ++
    [CMakeCurrent 0; CMakeCurrent 0; CRendererRender 1 (SceneRef 0) 2].
Proof. repeat split; vm_compute; reflexivity. Qed.

(** C10: a width given as a string is stored as the int it spells, and the
    object stays typed after it. *)
Lemma viewport_attributes_typed_witness :
  py_int (VStr " 1_024 ") = Ok 1024%Z /\
  set_viewport_width (VStr " 1_024 ") live =
    (Ok tt, with_self (bind_viewport_width (VInt 1024)) live) /\
  reachable (L := quiet_library) widened /\
  attributes_typed widened.
Proof.
  assert (E : py_int (VStr " 1_024 ") = Ok 1024%Z) by (vm_compute; reflexivity).
  split; [exact E|].
  destruct (viewport_attributes_typed (L := quiet_library)) as (Hw & _ & _ & Ht).
  split; [exact (Hw live _ _ E)|].
  split; [exact widened_reachable | exact (Ht widened widened_reachable)].
Defined.

(** ** The driver script *)

Lemma triangle_well_shaped : Driver.well_shaped (Driver.v triangle).
Proof. repeat constructor. Qed.

(** C5 fails on the code: a single RGBA row cannot be broadcast against
    three-column vertices; numpy raises [ValueError] and no colour array is
    built. *)
Lemma one_row_rgba_color_is_rejected :
  Driver.shape0 rgba_row = 1%nat /\
  Driver.assign_colors triangle (Some rgba_row) = Raise ValueError.
Proof. split; reflexivity. Qed.

(** The amended C5 on a triangle: one RGB row is repeated three times, two
    rows fail the assertion, three rows are taken as they are. *)
Lemma assign_colors_by_shape_witness :
  Driver.assign_colors triangle (Some rgb_row) =
    Ok {| Driver.v := Driver.v triangle; Driver.f := Driver.f triangle;
          Driver.vc := Some {| Driver.shape1 := 3;
                               Driver.rows := [ [1; 0; 0]; [1; 0; 0]; [1; 0; 0] ]%R |} |} /\
  Driver.assign_colors triangle (Some two_colors) = Raise AssertionError /\
  Driver.assign_colors triangle (Some three_colors) =
    Ok {| Driver.v := Driver.v triangle; Driver.f := Driver.f triangle;
          Driver.vc := Some three_colors |}.
Proof.
  split; [|split].
  - apply (DriverFacts.assign_colors_by_shape triangle rgb_row
             triangle_well_shaped); [repeat constructor | reflexivity | reflexivity].
  - apply (DriverFacts.assign_colors_by_shape triangle two_colors
             triangle_well_shaped); [repeat constructor | discriminate | discriminate].
  - apply (DriverFacts.assign_colors_by_shape triangle three_colors
             triangle_well_shaped);
      [repeat constructor | reflexivity | left; discriminate].
Defined.



(** ** More on construction *)

Lemma kwargs_is_constructed :
  __init__ (L := quiet_library) (VInt 640) (VInt 480) (VFloat float_one) None
    [("all_solid", VBool true); ("antialias", VBool true)] (before_init []) =
  (Ok tt, constructed_with_kwargs).
Proof. unfold constructed_with_kwargs. apply returned. vm_compute. reflexivity. Qed.

Lemma darwin_is_constructed :
  __init__ (L := quiet_library) (VInt 640) (VInt 480) (VInt 3)
    (Some {["shadows" := VBool true]}) [("antialias", VBool true)]
    {| world := darwin_process; self := unbound |} =
  (Ok tt, constructed_on_darwin).
Proof. unfold constructed_on_darwin. apply returned. vm_compute. reflexivity. Qed.

Lemma kwargs_delivered :
  delivered [("all_solid", VBool true); ("antialias", VBool true)].
Proof. apply (bool_decide_unpack _). vm_compute. exact Logic.I. Qed.

Lemma antialias_delivered : delivered [("antialias", VBool true)].
Proof. apply (bool_decide_unpack _). vm_compute. exact Logic.I. Qed.

Lemma cull_faces_not_in_kwargs :
  "cull_faces" ∉ [("all_solid", VBool true); ("antialias", VBool true)].*1.
Proof. apply (bool_decide_unpack _). vm_compute. exact Logic.I. Qed.

(** X2 for [OffscreenRenderer(640, 480, all_solid=True, antialias=True)]. *)
Lemma construction_flags_complete_witness :
  __init__ (L := quiet_library) (VInt 640) (VInt 480) (VFloat float_one) None
    [("all_solid", VBool true); ("antialias", VBool true)] (before_init []) =
  (Ok tt, constructed_with_kwargs) /\
  exists d,
    _render_flags (self constructed_with_kwargs) = Some d /\
    (forall key,
       is_Some (d !! key) <->
       is_Some (default_render_flags !! key) \/
       exists g, @None (gmap string PyVal) = Some g /\ is_Some (g !! key)) /\
    (forall flags, exists flags',
       translate_flags flags constructed_with_kwargs =
         (Ok flags', constructed_with_kwargs)).
Proof.
  split; [exact kwargs_is_constructed|].
  exact (construction_flags_complete (L := quiet_library) _ _ _ _ _ _ _
           kwargs_is_constructed).
Defined.

(** X3 for the same call: all_solid holds the value passed and cull_faces
    holds its default; and for [OffscreenRenderer(640, 480,
    render_flags={'shadows': True}, point_size=3, antialias=True)], where
    the mapping keeps the point size 1.0. *)
Lemma construction_kwargs_override_witness :
  (delivered [("all_solid", VBool true); ("antialias", VBool true)] /\
   exists d,
     _render_flags (self constructed_with_kwargs) = Some d /\
     d !! "all_solid" = Some (VBool true) /\
     d !! "cull_faces" = Some (VBool true)) /\
  (delivered [("antialias", VBool true)] /\
   _point_size (self constructed_on_darwin) = Some (VFloat (inject_Z 3)) /\
   exists d,
     _render_flags (self constructed_on_darwin) = Some d /\
     d !! "point_size" = Some (VFloat float_one)).
Proof.
  split.
  - split; [exact kwargs_delivered|].
    destruct (construction_kwargs_override (L := quiet_library) _ _ _ _ _ _ _
                kwargs_is_constructed kwargs_delivered) as (d & Hd & _ & Hkeys).
    exists d. split; [exact Hd|].
    assert (Hlinux : forall key : string,
              sys_platform (world (before_init [])) <> "darwin" \/ key <> "shadows")
      by (intros key; left; discriminate).
    split.
    + apply (proj1 (Hkeys "all_solid" (Hlinux _))).
      * apply list_elem_of_here.
      * now eexists.
    + rewrite (proj2 (Hkeys "cull_faces" (Hlinux _)) cull_faces_not_in_kwargs).
      reflexivity.
  - split; [exact antialias_delivered|].
    split; [vm_compute; reflexivity|].
    destruct (construction_kwargs_override (L := quiet_library) _ _ _ _ _ _ _
                darwin_is_constructed antialias_delivered) as (d & Hd & Hps & _).
    exists d. split; [exact Hd|]. rewrite Hps. reflexivity.
Defined.

(** X4 for [OffscreenRenderer(640, 480, render_flags={'shadows': True},
    point_size=3, antialias=True)] on macOS. *)
Lemma construction_on_darwin_disables_shadows_witness :
  sys_platform darwin_process = "darwin" /\
  exists d,
    _render_flags (self constructed_on_darwin) = Some d /\
    d !! "shadows" = Some (VBool false).
Proof.
  split; [reflexivity|].
  exact (construction_on_darwin_disables_shadows (L := quiet_library)
           _ _ _ _ _ _ _ darwin_is_constructed eq_refl).
Defined.

(** X5 with [PYOPENGL_PLATFORM=glx]: a width that spells no integer
    leaves the object untouched, and with proper arguments the unknown
    platform name is what raises. *)
Lemma construction_fails_before_the_library_witness :
  let s0 := before_init [("PYOPENGL_PLATFORM", "glx")] in
  (py_int (VStr "wide") = Raise ValueError /\
   __init__ (L := quiet_library) (VStr "wide") (VInt 480) (VFloat float_one)
     None [] s0 = (Raise ValueError, s0)) /\
  exists s,
    __init__ (L := quiet_library) (VInt 640) (VInt 480) (VFloat float_one)
      None [] s0 = (Raise ValueError, s) /\
    trace (world s) = trace (world s0) /\
    _platform (self s) = Null /\
    _renderer (self s) = Null /\
    __del__ (L := quiet_library) s = (Ok tt, s).
Proof.
  intros s0. split.
  - assert (E : py_int (VStr "wide") = Raise ValueError)
      by (vm_compute; reflexivity).
    split; [exact E|].
    exact (proj1 (construction_fails_before_the_library (L := quiet_library)
                    s0 (VStr "wide") (VInt 480) (VFloat float_one) None [])
             ValueError E).
  - assert (Henv : environ (world s0) !! "PYOPENGL_PLATFORM" = Some "glx")
      by (vm_compute; reflexivity).
    refine (proj2 (construction_fails_before_the_library (L := quiet_library)
                     s0 (VInt 640) (VInt 480) (VFloat float_one) None [])
              640%Z 480%Z float_one "glx" eq_refl eq_refl eq_refl Henv _ _);
      discriminate.
Defined.

(** ** More on the properties, [delete] and [render] *)

(** X6 on a fresh object. *)
Lemma properties_round_trip_witness :
  reachable (L := quiet_library) live /\
  exists w h ps,
    viewport_width live = (Ok w, live) /\
    set_viewport_width w live = (Ok tt, live) /\
    viewport_height live = (Ok h, live) /\
    set_viewport_height h live = (Ok tt, live) /\
    point_size live = (Ok ps, live) /\
    set_point_size ps live = (Ok tt, live).
Proof.
  split; [exact live_reachable|].
  exact (properties_round_trip (L := quiet_library) live live_reachable).
Defined.

(** X7 with a library whose renderer cannot be deleted, and with one whose
    context cannot be released. *)
Lemma delete_stops_at_first_failure_witness :
  let s := constructed failing_library [] in
  let s' := constructed leaking_library [] in
  delete (L := failing_library) s = (Raise (LibraryError 1), s) /\
  delete (L := leaking_library) s' =
    (Raise (LibraryError 2), with_world (log_call (CRendererDelete 1)) s').
Proof.
  intros s s'. split.
  - assert (Hr : _renderer (self s) = Ref live_renderer)
      by (vm_compute; reflexivity).
    assert (Hp : _platform (self s) = Ref live_platform)
      by (vm_compute; reflexivity).
    exact (proj1 (delete_stops_at_first_failure (L := failing_library)
                    s live_renderer live_platform (LibraryError 1) Hr Hp)
             eq_refl).
  - assert (Hr : _renderer (self s') = Ref live_renderer)
      by (vm_compute; reflexivity).
    assert (Hp : _platform (self s') = Ref live_platform)
      by (vm_compute; reflexivity).
    exact (proj2 (delete_stops_at_first_failure (L := leaking_library)
                    s' live_renderer live_platform (LibraryError 2) Hr Hp)
             eq_refl eq_refl).
Defined.

(** X8 on a fresh object. *)
Lemma render_after_delete_raises_witness :
  let s1 := (delete (L := quiet_library) live).2 in
  delete (L := quiet_library) live = (Ok tt, s1) /\
  render (L := quiet_library) (SceneRef 0) 0 s1 = (Raise AttributeError, s1).
Proof.
  intros s1.
  assert (E : delete (L := quiet_library) live = (Ok tt, s1))
    by (subst s1; apply returned; vm_compute; reflexivity).
  split; [exact E|].
  exact (render_after_delete_raises (L := quiet_library) live s1 (SceneRef 0) 0 E).
Defined.

(** X9 after [r.render_flags = {}]. *)
Lemma render_missing_flag_raises_witness :
  let s := with_flags ∅ in
  _render_flags (self s) = Some ∅ /\
  exists s2,
    bind (render_resize (L := quiet_library))
      (fun _ => render_sync (L := quiet_library)) s = (Ok tt, s2) /\
    render (L := quiet_library) (SceneRef 0) 0 s =
      (Raise (KeyError "flip_wireframe"), s2).
Proof.
  intros s. split; [reflexivity|].
  assert (Hp : _platform (self s) = Ref live_platform)
    by (vm_compute; reflexivity).
  assert (Hr : _renderer (self s) = Ref live_renderer)
    by (vm_compute; reflexivity).
  assert (Hw : _viewport_width (self s) = Some (VInt 640))
    by (vm_compute; reflexivity).
  assert (Hh : _viewport_height (self s) = Some (VInt 480))
    by (vm_compute; reflexivity).
  assert (Hps : _point_size (self s) = Some (VFloat float_one))
    by (vm_compute; reflexivity).
  exact (render_missing_flag_raises (L := quiet_library)
           s live_platform live_renderer (VInt 640) (VInt 480) (VFloat float_one)
           PygletPlatform ∅ (SceneRef 0) 0
           quiet_library_never_raises Hp Hr Hw Hh Hps live_selects_pyglet
           eq_refl eq_refl).
Defined.

(** ** More on the flags *)

Lemma flags_flip_only_complete key :
  In key independent_keys -> is_Some (flags_flip_only !! key).
Proof.
  intros Hkey. cbn in Hkey.
  destruct Hkey as [<- | [<- | [<- | [<- | []]]]]; now eexists.
Qed.

(** X10 with upstream's constants: flip_wireframe and vertex_normals give
    4 + 256 although the mapping has neither all_wireframe nor
    all_solid. *)
Lemma flip_wireframe_needs_no_other_mode_witness :
  flags_flip_only !! "all_wireframe" = None /\
  flags_flip_only !! "all_solid" = None /\
  translate_flags 0 (with_flags flags_flip_only) =
    (Ok 260%Z, with_flags flags_flip_only).
Proof.
  split; [reflexivity|]. split; [reflexivity|].
  refine (flip_wireframe_needs_no_other_mode (with_flags flags_flip_only)
            flags_flip_only 0 eq_refl flags_flip_only_complete _).
  exists (VBool true). split; reflexivity.
Defined.

(** X11 on a fresh object. *)
Lemma default_flags_add_nothing_witness :
  _render_flags (self live) = Some default_render_flags /\
  translate_flags 6 live = (Ok 6%Z, live).
Proof.
  destruct (default_flags_add_nothing (L := quiet_library)) as [Hsame Hinit].
  assert (Hlinux : sys_platform (world (before_init [])) <> "darwin")
    by discriminate.
  assert (Hd : _render_flags (self live) = Some default_render_flags)
    by exact (Hinit _ _ _ _ _ live_is_constructed Hlinux).
  split; [exact Hd | exact (Hsame live 6%Z Hd)].
Defined.

(** X12 with upstream's constants: the bits 2 and 4 of the caller survive
    in 6 + 16. *)
Lemma translate_flags_keeps_bits_witness :
  let out := translate_flags 6 (with_flags flags_solid) in
  out.1 = Ok 22%Z /\ Z.lor 6 22 = 22%Z.
Proof.
  intros out.
  assert (E : out.1 = Ok 22%Z) by (vm_compute; reflexivity).
  split; [exact E|].
  exact (translate_flags_keeps_bits (with_flags flags_solid) out.2 6 22
           (returned out 22%Z E)).
Defined.

(** ** Platform and renderer *)

(** X13 after [r.viewport_width = 800]. *)
Lemma platform_and_renderer_paired_witness :
  never_raises (L := quiet_library) /\
  reachable (L := quiet_library) widened /\
  paired widened.
Proof.
  split; [exact quiet_library_never_raises|].
  split; [exact widened_reachable|].
  exact (platform_and_renderer_paired (L := quiet_library) widened
           quiet_library_never_raises widened_reachable).
Defined.

(** X14 after [r.viewport_width = 800]: the first [render] replaces the
    backend, the second one keeps what the first one left. *)
Lemma second_render_keeps_backend_witness :
  let s1 := (render (L := quiet_library) (SceneRef 0) 0 widened).2 in
  let s2 := (render (L := quiet_library) (SceneRef 1) 1 s1).2 in
  reachable (L := quiet_library) widened /\
  exists p1 r1 r2,
    _platform (self s1) = Ref p1 /\
    _renderer (self s1) = Ref r1 /\
    _platform (self s2) = Ref p1 /\
    _renderer (self s2) = Ref r2 /\
    r_id r2 = r_id r1 /\
    exists calls,
      trace (world s2) =
        trace (world s1) ++
        [CMakeCurrent (p_id p1); CMakeCurrent (p_id p1)] ++ calls /\
      Forall is_render_call calls.
Proof.
  intros s1 s2. split; [exact widened_reachable|].
  exact (second_render_keeps_backend (L := quiet_library)
           widened live_platform live_renderer PygletPlatform
           (SceneRef 0) (SceneRef 1) 0 1
           quiet_library_never_raises widened_reachable
           widened_platform_bound widened_renderer_bound widened_selects_pyglet).
Defined.

(** ** More on the driver script *)

(** X15 on a triangle with three colour rows. *)
Lemma accepted_colors_cover_the_vertices_witness :
  Driver.assign_colors triangle (Some three_colors) = Ok painted_triangle /\
  Driver.v painted_triangle = Driver.v triangle /\
  Driver.f painted_triangle = Driver.f triangle /\
  exists colors,
    Driver.vc painted_triangle = Some colors /\
    Driver.shape0 colors = Driver.shape0 (Driver.v triangle).
Proof.
  assert (E : Driver.assign_colors triangle (Some three_colors) =
                Ok painted_triangle) by reflexivity.
  split; [exact E|].
  exact (DriverFacts.accepted_colors_cover_the_vertices
           triangle painted_triangle three_colors E).
Defined.

(** X16 on a triangle without colours and on one with colours. *)
Lemma unsupplied_colors_default_to_grey_witness :
  Driver.assign_colors triangle None =
    Ok {| Driver.v := Driver.v triangle; Driver.f := Driver.f triangle;
          Driver.vc :=
            Some {| Driver.shape1 := 3;
                    Driver.rows :=
                      map (map (fun _ => 8 / 10)%R)
                        (Driver.rows (Driver.v triangle)) |} |} /\
  Driver.assign_colors painted_triangle None = Ok painted_triangle.
Proof.
  split.
  - exact (proj1 (DriverFacts.unsupplied_colors_default_to_grey triangle)
             eq_refl).
  - exact (proj2 (DriverFacts.unsupplied_colors_default_to_grey painted_triangle)
             three_colors eq_refl).
Defined.

(** X18 for one RGBA row against three-column vertices. *)
Lemma one_row_colors_need_a_matching_width_witness :
  Driver.shape0 rgba_row = 1%nat /\
  (Driver.assign_colors triangle (Some rgba_row) = Raise ValueError <->
   Driver.shape1 rgba_row <> Driver.shape1 (Driver.v triangle) /\
   Driver.shape1 rgba_row <> 1%nat /\
   Driver.shape1 (Driver.v triangle) <> 1%nat).
Proof.
  split; [reflexivity|].
  exact (DriverFacts.one_row_colors_need_a_matching_width triangle rgba_row
           eq_refl).
Defined.

(** X19: no view, minus three views, and sixty views of an array with four
    columns. *)
Lemma turntable_edge_cases_witness :
  Driver.turntable 0 (Driver.v triangle) = Raise ZeroDivisionError /\
  Driver.turntable (-3) (Driver.v triangle) = Ok (Driver.v triangle) /\
  Driver.turntable 60 rgba_row = Raise ValueError.
Proof.
  split; [|split].
  - exact (proj1 (DriverFacts.turntable_edge_cases 0 (Driver.v triangle))
             eq_refl).
  - exact (proj1 (proj2 (DriverFacts.turntable_edge_cases (-3) (Driver.v triangle)))
             eq_refl).
  - refine (proj2 (proj2 (DriverFacts.turntable_edge_cases 60 rgba_row))
              eq_refl _).
    discriminate.
Defined.



(** X26 for [--shadows True] and images of 512 pixels on Linux, with
    upstream's constants: 32 + 128 is added to no incoming bits. *)
Lemma script_renderer_adds_only_shadows_witness :
  let out := __init__ (L := quiet_library) (VInt 512) (VInt 512)
               (VFloat float_one) (Some (Driver.render_flags (VBool true))) []
               (before_init []) in
  out.1 = Ok tt /\
  translate_flags 0 out.2 = (Ok 160%Z, out.2).
Proof.
  intros out.
  assert (E : out.1 = Ok tt) by (vm_compute; reflexivity).
  split; [exact E|].
  exact (script_renderer_adds_only_shadows (L := quiet_library)
           (before_init []) out.2 (VInt 512) (VBool true) 0
           (returned out tt E)).
Defined.
